(** * Restaurant booking agent: the conversation state machine

    A shallow embedding of [agent/state.py], [agent/nodes.py],
    [agent/graph.py], [apis/booking.py] and [apis/sms.py].

    - The session state is a record; a node returns a partial update
      (a dict in the source) that the engine merges into the state:
      the [messages] key is appended, every other key is overwritten.
    - The language model and the two commit services are external: they
      are taken as the fields of an [Adapters] record, and every call to
      [create_booking] and [send_sms] is written to a log ([World]).
    - The compiled graph is a table of edges run by a fuel-bounded loop. *)

From Stdlib Require Import String Ascii List ZArith Bool Lia DecimalString.
Import ListNotations.
Local Open Scope list_scope.
Local Open Scope string_scope.

(** ** Python values *)

Module Py.

(** Line feed, for the triple-quoted f-strings of the source. *)
Definition nl : string := String (ascii_of_nat 10) EmptyString.

(** [str(n)] for an int. *)
Definition str_int (n : Z) : string := NilZero.string_of_int (Z.to_int n).

(** [f"{v}"] for an [Optional[str]]: [None] prints as the word None. *)
Definition fmt_str (v : option string) : string :=
  match v with
  | Some s => s
  | None => "None"
  end.

(** [f"{v}"] for an [Optional[int]]. *)
Definition fmt_int (v : option Z) : string :=
  match v with
  | Some n => str_int n
  | None => "None"
  end.

(** Truth value of an [Optional[str]]: [None] and the empty string are
    falsy. *)
Definition truthy_str (v : option string) : bool :=
  match v with
  | Some EmptyString => false
  | Some (String _ _) => true
  | None => false
  end.

(** Truth value of an [Optional[int]]: [None] and [0] are falsy. *)
Definition truthy_int (v : option Z) : bool :=
  match v with
  | Some n => negb (Z.eqb n 0)
  | None => false
  end.

(** [v is not None]. *)
Definition is_not_None {A : Type} (v : option A) : bool :=
  match v with
  | Some _ => true
  | None => false
  end.

(** [p] is a prefix of [s]. *)
Fixpoint startswith (p s : string) : bool :=
  match p, s with
  | EmptyString, _ => true
  | String a p', String b s' => Ascii.eqb a b && startswith p' s'
  | String _ _, EmptyString => false
  end.

(** [needle in hay] on strings. *)
Fixpoint contains (needle hay : string) : bool :=
  startswith needle hay ||
  match hay with
  | EmptyString => false
  | String _ hay' => contains needle hay'
  end.

(** [xs[-1]]; an empty list raises IndexError. *)
Definition last_item {A : Type} (xs : list A) : option A :=
  match rev xs with
  | x :: _ => Some x
  | [] => None
  end.

End Py.

(** ** agent/state.py *)

Module State.

Inductive Role := Human | AI | System.

Record BaseMessage := { role : Role; content : string }.

Definition AIMessage (c : string) : BaseMessage := {| role := AI; content := c |}.
Definition HumanMessage (c : string) : BaseMessage := {| role := Human; content := c |}.

Record BookingState := {
  messages : list BaseMessage;
  restaurant_name : option string;
  date : option string;
  time : option string;
  party_size : option Z;
  customer_name : option string;
  phone : option string;
  booking_ref : option string;
  all_info_collected : bool;
  awaiting_confirmation : bool;
  user_confirmed : bool;
  conversation_complete : bool
}.

(** The state every caller starts a session with ([main.py],
    [streamlit_app.py], [test_helpers.create_booking_state]). *)
Definition initial_state : BookingState :=
  {| messages := [];
     restaurant_name := None; date := None; time := None;
     party_size := None; customer_name := None; phone := None;
     booking_ref := None;
     all_info_collected := false; awaiting_confirmation := false;
     user_confirmed := false; conversation_complete := false |}.

(** One key of the dict a node returns, with the value written to it.
    A node's result is a list of such entries (the empty list is the
    empty dict). The six booking fields are only ever written a value;
    [booking_ref] is also written [None]. *)
Inductive Entry :=
| K_messages (v : list BaseMessage)
| K_restaurant_name (v : string)
| K_date (v : string)
| K_time (v : string)
| K_party_size (v : Z)
| K_customer_name (v : string)
| K_phone (v : string)
| K_booking_ref (v : option string)
| K_all_info_collected (v : bool)
| K_awaiting_confirmation (v : bool)
| K_user_confirmed (v : bool)
| K_conversation_complete (v : bool).

Definition Update := list Entry.

(** How the engine merges one key into the state: [messages] goes
    through the [add_messages] reducer (new messages are appended),
    every other key is a last-value channel (the value is replaced). *)
Definition apply_entry (s : BookingState) (e : Entry) : BookingState :=
  match e with
  | K_messages v =>
    {| messages := messages s ++ v;
       restaurant_name := restaurant_name s;
       date := date s;
       time := time s;
       party_size := party_size s;
       customer_name := customer_name s;
       phone := phone s;
       booking_ref := booking_ref s;
       all_info_collected := all_info_collected s;
       awaiting_confirmation := awaiting_confirmation s;
       user_confirmed := user_confirmed s;
       conversation_complete := conversation_complete s |}
  | K_restaurant_name v =>
    {| messages := messages s;
       restaurant_name := Some v;
       date := date s;
       time := time s;
       party_size := party_size s;
       customer_name := customer_name s;
       phone := phone s;
       booking_ref := booking_ref s;
       all_info_collected := all_info_collected s;
       awaiting_confirmation := awaiting_confirmation s;
       user_confirmed := user_confirmed s;
       conversation_complete := conversation_complete s |}
  | K_date v =>
    {| messages := messages s;
       restaurant_name := restaurant_name s;
       date := Some v;
       time := time s;
       party_size := party_size s;
       customer_name := customer_name s;
       phone := phone s;
       booking_ref := booking_ref s;
       all_info_collected := all_info_collected s;
       awaiting_confirmation := awaiting_confirmation s;
       user_confirmed := user_confirmed s;
       conversation_complete := conversation_complete s |}
  | K_time v =>
    {| messages := messages s;
       restaurant_name := restaurant_name s;
       date := date s;
       time := Some v;
       party_size := party_size s;
       customer_name := customer_name s;
       phone := phone s;
       booking_ref := booking_ref s;
       all_info_collected := all_info_collected s;
       awaiting_confirmation := awaiting_confirmation s;
       user_confirmed := user_confirmed s;
       conversation_complete := conversation_complete s |}
  | K_party_size v =>
    {| messages := messages s;
       restaurant_name := restaurant_name s;
       date := date s;
       time := time s;
       party_size := Some v;
       customer_name := customer_name s;
       phone := phone s;
       booking_ref := booking_ref s;
       all_info_collected := all_info_collected s;
       awaiting_confirmation := awaiting_confirmation s;
       user_confirmed := user_confirmed s;
       conversation_complete := conversation_complete s |}
  | K_customer_name v =>
    {| messages := messages s;
       restaurant_name := restaurant_name s;
       date := date s;
       time := time s;
       party_size := party_size s;
       customer_name := Some v;
       phone := phone s;
       booking_ref := booking_ref s;
       all_info_collected := all_info_collected s;
       awaiting_confirmation := awaiting_confirmation s;
       user_confirmed := user_confirmed s;
       conversation_complete := conversation_complete s |}
  | K_phone v =>
    {| messages := messages s;
       restaurant_name := restaurant_name s;
       date := date s;
       time := time s;
       party_size := party_size s;
       customer_name := customer_name s;
       phone := Some v;
       booking_ref := booking_ref s;
       all_info_collected := all_info_collected s;
       awaiting_confirmation := awaiting_confirmation s;
       user_confirmed := user_confirmed s;
       conversation_complete := conversation_complete s |}
  | K_booking_ref v =>
    {| messages := messages s;
       restaurant_name := restaurant_name s;
       date := date s;
       time := time s;
       party_size := party_size s;
       customer_name := customer_name s;
       phone := phone s;
       booking_ref := v;
       all_info_collected := all_info_collected s;
       awaiting_confirmation := awaiting_confirmation s;
       user_confirmed := user_confirmed s;
       conversation_complete := conversation_complete s |}
  | K_all_info_collected v =>
    {| messages := messages s;
       restaurant_name := restaurant_name s;
       date := date s;
       time := time s;
       party_size := party_size s;
       customer_name := customer_name s;
       phone := phone s;
       booking_ref := booking_ref s;
       all_info_collected := v;
       awaiting_confirmation := awaiting_confirmation s;
       user_confirmed := user_confirmed s;
       conversation_complete := conversation_complete s |}
  | K_awaiting_confirmation v =>
    {| messages := messages s;
       restaurant_name := restaurant_name s;
       date := date s;
       time := time s;
       party_size := party_size s;
       customer_name := customer_name s;
       phone := phone s;
       booking_ref := booking_ref s;
       all_info_collected := all_info_collected s;
       awaiting_confirmation := v;
       user_confirmed := user_confirmed s;
       conversation_complete := conversation_complete s |}
  | K_user_confirmed v =>
    {| messages := messages s;
       restaurant_name := restaurant_name s;
       date := date s;
       time := time s;
       party_size := party_size s;
       customer_name := customer_name s;
       phone := phone s;
       booking_ref := booking_ref s;
       all_info_collected := all_info_collected s;
       awaiting_confirmation := awaiting_confirmation s;
       user_confirmed := v;
       conversation_complete := conversation_complete s |}
  | K_conversation_complete v =>
    {| messages := messages s;
       restaurant_name := restaurant_name s;
       date := date s;
       time := time s;
       party_size := party_size s;
       customer_name := customer_name s;
       phone := phone s;
       booking_ref := booking_ref s;
       all_info_collected := all_info_collected s;
       awaiting_confirmation := awaiting_confirmation s;
       user_confirmed := user_confirmed s;
       conversation_complete := v |}
  end.

(** How the engine merges a node's result into the state. *)
Definition apply_update (s : BookingState) (u : Update) : BookingState :=
  fold_left apply_entry u s.

(** The caller's [state["messages"].append(HumanMessage(content=...))]. *)
Definition append_user_message (s : BookingState) (text : string) : BookingState :=
  {| messages := messages s ++ [HumanMessage text];
     restaurant_name := restaurant_name s; date := date s; time := time s;
     party_size := party_size s; customer_name := customer_name s;
     phone := phone s; booking_ref := booking_ref s;
     all_info_collected := all_info_collected s;
     awaiting_confirmation := awaiting_confirmation s;
     user_confirmed := user_confirmed s;
     conversation_complete := conversation_complete s |}.

End State.

(** ** apis/booking.py and apis/sms.py *)

Module Apis.

(** The keyword arguments of a [create_booking] call. The nodes pass
    the state's fields as they are, so each may be [None]. *)
Record BookingArgs := {
  restaurant : option string;
  date : option string;
  time : option string;
  party_size : option Z;
  name : option string;
  phone : option string
}.

(** The keys of the returned dict that a node reads. *)
Record BookingResult := { success : bool; booking_ref : option string }.

Record SmsArgs := { sms_phone : option string; sms_message : string }.

Record SmsResult := { sms_success : bool }.

Definition BOOKING_REF_MIN : Z := 10000.
Definition BOOKING_REF_MAX : Z := 99999.

(** The mock booking service. Its two random draws are parameters:
    [unlucky] is [random.random() < BOOKING_FAILURE_RATE] and [number]
    is [random.randint(BOOKING_REF_MIN, BOOKING_REF_MAX)]. *)
Definition create_booking (unlucky : bool) (number : Z) (simulate_failure : bool)
    (a : BookingArgs) : BookingResult :=
  if simulate_failure
     || match restaurant a with
        | Some r => String.eqb r "Test Failure Restaurant"
        | None => false
        end
     || unlucky
  then {| success := false; booking_ref := None |}
  else {| success := true; booking_ref := Some ("BK-" ++ Py.str_int number) |}.

(** The mock SMS service; [unlucky] is
    [random.random() < SMS_FAILURE_RATE]. *)
Definition send_sms (unlucky : bool) (simulate_failure : bool) (a : SmsArgs) : SmsResult :=
  if simulate_failure
     || match sms_phone a with
        | Some p => String.eqb p "555-SMS-FAIL"
        | None => false
        end
     || unlucky
  then {| sms_success := false |}
  else {| sms_success := true |}.

End Apis.

(** ** agent/nodes.py *)

(** Structured output of the extraction call. *)
Module BookingInfo.
Record t := {
  restaurant_name : option string;
  date : option string;
  time : option string;
  party_size : option Z;
  customer_name : option string;
  phone : option string;
  response_message : string
}.
End BookingInfo.

(** Structured output of the confirmation call. *)
Module ConfirmationResponse.
Record t := {
  user_wants_to_proceed : bool;
  requested_changes : option string
}.
End ConfirmationResponse.

Module Nodes.
Import Py State.

(** The names [llm], [create_booking] and [send_sms] that nodes.py
    binds at module level (and that the tests patch). The prompt sent
    to the model is a function of the state and of the clock, so a
    reply is any function of the state the node runs in. The commit
    services are random: a reply also depends on how many calls were
    made before. *)
Record Adapters := {
  call_llm_booking_info : BookingState -> BookingInfo.t;
  call_llm_confirmation : BookingState -> ConfirmationResponse.t;
  call_create_booking : nat -> Apis.BookingArgs -> Apis.BookingResult;
  call_send_sms : nat -> Apis.SmsArgs -> Apis.SmsResult
}.

(** Every call made to the commit services so far, oldest first. *)
Record World := {
  booking_log : list (Apis.BookingArgs * Apis.BookingResult);
  sms_log : list (Apis.SmsArgs * Apis.SmsResult)
}.

Definition empty_world : World := {| booking_log := []; sms_log := [] |}.

Definition router_node (state : BookingState) : string :=
  if awaiting_confirmation state then "handle_confirmation" else "collect_info".

(** [updates[key] = value] guarded by [if value:]. *)
Definition when_truthy_str (v : option string) (key : string -> Entry) : Update :=
  match v with
  | Some s => if truthy_str v then [key s] else []
  | None => []
  end.

Definition when_truthy_int (v : option Z) (key : Z -> Entry) : Update :=
  match v with
  | Some n => if truthy_int v then [key n] else []
  | None => []
  end.

Definition collect_info_node (env : Adapters) (state : BookingState) : Update :=
  let response := call_llm_booking_info env state in
  ([K_messages [AIMessage (BookingInfo.response_message response)]]
   ++ when_truthy_str (BookingInfo.restaurant_name response) K_restaurant_name
   ++ when_truthy_str (BookingInfo.date response) K_date
   ++ when_truthy_str (BookingInfo.time response) K_time
   ++ when_truthy_int (BookingInfo.party_size response) K_party_size
   ++ when_truthy_str (BookingInfo.customer_name response) K_customer_name
   ++ when_truthy_str (BookingInfo.phone response) K_phone)%list.

(** The list holds, for each required field, whether [field is not None]
    (the fields themselves are strings and an int). *)
Definition should_continue_collecting (state : BookingState) : string :=
  let required_fields :=
    [ is_not_None (restaurant_name state);
      is_not_None (date state);
      is_not_None (time state);
      is_not_None (party_size state);
      is_not_None (customer_name state);
      is_not_None (phone state) ] in
  let all_filled := forallb (fun field => field) required_fields in
  if all_filled then "confirm" else "collect".

Definition confirmation_message (state : BookingState) : string :=
  "Great! Let me confirm the details of your booking:" ++ nl ++ nl
  ++ "Restaurant: " ++ fmt_str (restaurant_name state) ++ nl
  ++ "Date: " ++ fmt_str (date state) ++ nl
  ++ "Time: " ++ fmt_str (time state) ++ nl
  ++ "Party size: " ++ fmt_int (party_size state) ++ " people" ++ nl
  ++ "Name: " ++ fmt_str (customer_name state) ++ nl
  ++ "Phone: " ++ fmt_str (phone state) ++ nl ++ nl
  ++ "Does everything look correct? (You can say 'yes' to confirm, or let me know if you'd like to change anything)".

Definition confirm_node (state : BookingState) : Update :=
  [ K_messages [AIMessage (confirmation_message state)];
    K_all_info_collected true;
    K_awaiting_confirmation true ].

Definition handle_confirmation_node (env : Adapters) (state : BookingState) : Update :=
  let response := call_llm_confirmation env state in
  let otherwise :=
    [ K_user_confirmed (ConfirmationResponse.user_wants_to_proceed response);
      K_awaiting_confirmation false ] in
  match ConfirmationResponse.requested_changes response with
  | Some requested_changes =>
      if negb (ConfirmationResponse.user_wants_to_proceed response)
         && truthy_str (Some requested_changes)
      then
        [ K_user_confirmed false;
          K_awaiting_confirmation false;
          K_messages [AIMessage requested_changes] ]
      else otherwise
  | None => otherwise
  end.

Definition check_confirmation_routing (state : BookingState) : string :=
  if user_confirmed state then "proceed" else "collect".

(** The arguments both booking nodes build from the state. *)
Definition booking_args (state : BookingState) : Apis.BookingArgs :=
  {| Apis.restaurant := restaurant_name state;
     Apis.date := date state;
     Apis.time := time state;
     Apis.party_size := party_size state;
     Apis.name := customer_name state;
     Apis.phone := phone state |}.

(** One call of the booking service, written to the log. *)
Definition create_booking (env : Adapters) (a : Apis.BookingArgs) (w : World)
  : Apis.BookingResult * World :=
  let result := call_create_booking env (length (booking_log w)) a in
  (result,
   {| booking_log := booking_log w ++ [(a, result)]; sms_log := sms_log w |}).

(** One call of the SMS service, written to the log. *)
Definition send_sms (env : Adapters) (a : Apis.SmsArgs) (w : World)
  : Apis.SmsResult * World :=
  let result := call_send_sms env (length (sms_log w)) a in
  (result,
   {| booking_log := booking_log w; sms_log := sms_log w ++ [(a, result)] |}).

Definition create_booking_node (env : Adapters) (state : BookingState) (w : World)
  : Update * World :=
  let (result, w') := create_booking env (booking_args state) w in
  if Apis.success result then
    ([ K_booking_ref (Apis.booking_ref result);
       K_messages [AIMessage ("Perfect! I've created your booking. Reference: "
                              ++ fmt_str (Apis.booking_ref result))] ],
     w')
  else
    ([ K_booking_ref None ], w').

Definition booking_error_message (state : BookingState) : string :=
  "I'm having trouble creating your booking right now. This might be a temporary issue with the booking system."
  ++ nl ++ nl
  ++ "I've recorded your details:" ++ nl
  ++ "- Restaurant: " ++ fmt_str (restaurant_name state) ++ nl
  ++ "- Date: " ++ fmt_str (date state) ++ " at " ++ fmt_str (time state) ++ nl
  ++ "- Party size: " ++ fmt_int (party_size state) ++ nl
  ++ "- Name: " ++ fmt_str (customer_name state) ++ nl
  ++ "- Phone: " ++ fmt_str (phone state) ++ nl ++ nl
  ++ "Can I have someone from the restaurant call you back to confirm the booking?".

Definition handle_booking_error_node (env : Adapters) (state : BookingState) (w : World)
  : Update * World :=
  let (result, w') := create_booking env (booking_args state) w in
  if Apis.success result then
    ([ K_booking_ref (Apis.booking_ref result);
       K_messages [AIMessage ("Success! Your booking has been created. Reference: "
                              ++ fmt_str (Apis.booking_ref result))] ],
     w')
  else
    ([ K_messages [AIMessage (booking_error_message state)];
       K_conversation_complete true ],
     w').

Definition sms_message (state : BookingState) : string :=
  "Your booking is confirmed!" ++ nl ++ nl
  ++ "Restaurant: " ++ fmt_str (restaurant_name state) ++ nl
  ++ "Date: " ++ fmt_str (date state) ++ nl
  ++ "Time: " ++ fmt_str (time state) ++ nl
  ++ "Party: " ++ fmt_int (party_size state) ++ " people" ++ nl
  ++ "Ref: " ++ fmt_str (booking_ref state) ++ nl ++ nl
  ++ "See you there! Reply CANCEL to modify.".

Definition sms_sent_message : string :=
  "I've sent a confirmation SMS to your phone. Your booking is all set!".

Definition send_sms_node (env : Adapters) (state : BookingState) (w : World)
  : Update * World :=
  let (result, w') :=
    send_sms env {| Apis.sms_phone := phone state;
                    Apis.sms_message := sms_message state |} w in
  if Apis.sms_success result then
    ([ K_messages [AIMessage sms_sent_message];
       K_conversation_complete true ],
     w')
  else
    ([], w').

Definition sms_error_message (state : BookingState) : string :=
  "Your booking is confirmed!" ++ nl ++ nl
  ++ "However, I couldn't send the confirmation SMS. Please save this information:"
  ++ nl ++ nl
  ++ "Restaurant: " ++ fmt_str (restaurant_name state) ++ nl
  ++ "Date: " ++ fmt_str (date state) ++ nl
  ++ "Time: " ++ fmt_str (time state) ++ nl
  ++ "Party size: " ++ fmt_int (party_size state) ++ nl
  ++ "Booking Reference: " ++ fmt_str (booking_ref state) ++ nl ++ nl
  ++ "Please screenshot or write down your booking reference: "
  ++ fmt_str (booking_ref state).

Definition handle_sms_error_node (state : BookingState) : Update :=
  [ K_messages [AIMessage (sms_error_message state)];
    K_conversation_complete true ].

End Nodes.

(** ** agent/graph.py *)

Module Graph.
Import Py State.

(** The names given to [add_node], and [END]. *)
Inductive Node :=
| router
| collect_info
| confirm
| handle_confirmation
| create_booking
| send_sms
| handle_booking_error
| handle_sms_error
| END.

(** What a run can raise. *)
Inductive Error :=
| IndexError
| KeyError
| GraphRecursionError.

Inductive result (A : Type) :=
| Ok (a : A)
| Raise (e : Error).
Arguments Ok {A} a.
Arguments Raise {A} e.

(** The string that [END] is. *)
Definition END_name : string := "__end__".

Definition check_booking_success (state : BookingState) : string :=
  let booking_ref := booking_ref state in
  if truthy_str booking_ref then "send_sms" else "handle_booking_error".

Definition check_sms_success (state : BookingState) : result string :=
  match last_item (messages state) with
  | Some m =>
      let last_message := content m in
      if contains "sent a confirmation SMS" last_message
      then Ok END_name
      else Ok "handle_sms_error"
  | None => Raise IndexError
  end.

(** What [add_edge] and [add_conditional_edges] record for a node. *)
Inductive Edges :=
| edge (target : Node)
| conditional_edges (path : BookingState -> result string)
                    (path_map : list (string * Node)).

(** The function registered for each node. The router node is
    [lambda state: state]: every key is written back with the value
    it has, and the messages, which carry the ids they already have
    in the history, replace themselves; nothing changes. *)
Definition node_function (env : Nodes.Adapters) (n : Node)
    (state : BookingState) (w : Nodes.World) : Update * Nodes.World :=
  match n with
  | router => ([], w)
  | collect_info => (Nodes.collect_info_node env state, w)
  | confirm => (Nodes.confirm_node state, w)
  | handle_confirmation => (Nodes.handle_confirmation_node env state, w)
  | create_booking => Nodes.create_booking_node env state w
  | send_sms => Nodes.send_sms_node env state w
  | handle_booking_error => Nodes.handle_booking_error_node env state w
  | handle_sms_error => (Nodes.handle_sms_error_node state, w)
  | END => ([], w)
  end.

(** The edges [build_graph] adds. *)
Definition build_graph (n : Node) : Edges :=
  match n with
  | router =>
      conditional_edges (fun s => Ok (Nodes.router_node s))
        [ ("collect_info", collect_info);
          ("handle_confirmation", handle_confirmation) ]
  | collect_info =>
      conditional_edges (fun s => Ok (Nodes.should_continue_collecting s))
        [ ("collect", END);
          ("confirm", confirm) ]
  | confirm => edge END
  | handle_confirmation =>
      conditional_edges (fun s => Ok (Nodes.check_confirmation_routing s))
        [ ("proceed", create_booking);
          ("collect", END) ]
  | create_booking =>
      conditional_edges (fun s => Ok (check_booking_success s))
        [ ("send_sms", send_sms);
          ("handle_booking_error", handle_booking_error) ]
  | send_sms =>
      conditional_edges check_sms_success
        [ (END_name, END);
          ("handle_sms_error", handle_sms_error) ]
  | handle_booking_error => edge END
  | handle_sms_error => edge END
  | END => edge END
  end.

(** [path_map[label]]. *)
Fixpoint lookup (label : string) (path_map : list (string * Node)) : result Node :=
  match path_map with
  | [] => Raise KeyError
  | (k, n) :: rest => if String.eqb k label then Ok n else lookup label rest
  end.

(** The node that runs after [n], decided on the state as [n] left it. *)
Definition next_node (n : Node) (state : BookingState) : result Node :=
  match build_graph n with
  | edge target => Ok target
  | conditional_edges path path_map =>
      match path state with
      | Ok label => lookup label path_map
      | Raise e => Raise e
      end
  end.

(** The outcome of one [invoke]: the state handed back to the caller,
    the calls made to the commit services, the nodes that ran. *)
Record Run := {
  final : BookingState;
  world : Nodes.World;
  visited : list Node
}.

(** The engine's default bound on the number of steps of one run. *)
Definition recursion_limit : nat := 25.

(** One step of the engine: run a node, merge its update into the
    state, follow the node's edge on the merged state. *)
Definition step (env : Nodes.Adapters) (n : Node)
    (state : BookingState) (w : Nodes.World)
  : result (Node * BookingState * Nodes.World) :=
  let (update, w') := node_function env n state w in
  let state' := apply_update state update in
  match next_node n state' with
  | Ok n' => Ok (n', state', w')
  | Raise e => Raise e
  end.

Definition is_END (n : Node) : bool :=
  match n with
  | END => true
  | _ => false
  end.

(** The engine: step from node to node until [END]. *)
Fixpoint run (fuel : nat) (env : Nodes.Adapters) (n : Node)
    (state : BookingState) (w : Nodes.World) (seen : list Node) : result Run :=
  if is_END n then Ok {| final := state; world := w; visited := seen |}
  else
    match fuel with
    | O => Raise GraphRecursionError
    | S fuel' =>
        match step env n state w with
        | Ok (n', state', w') => run fuel' env n' state' w' (seen ++ [n])
        | Raise e => Raise e
        end
    end.

(** [app.invoke(state)]: the entry point is the router. *)
Definition invoke (env : Nodes.Adapters) (state : BookingState) (w : Nodes.World)
  : result Run :=
  run recursion_limit env router state w [].

(** One turn of the caller's loop: append the user's line, invoke. *)
Definition turn (env : Nodes.Adapters) (text : string)
    (state : BookingState) (w : Nodes.World) : result Run :=
  invoke env (append_user_message state text) w.

End Graph.


(** ** The caller's loop and the vocabulary of the properties *)

Module Session.
Import Py State.

(** The caller's loop ([main.py], [streamlit_app.py]): one [invoke]
    per user line, each on the state the previous one returned. Every
    turn comes with the adapters as they answer during that turn. *)
Fixpoint session (turns : list (Nodes.Adapters * string))
    (state : BookingState) (w : Nodes.World)
  : Graph.result (BookingState * Nodes.World) :=
  match turns with
  | [] => Graph.Ok (state, w)
  | (env, text) :: rest =>
      match Graph.turn env text state w with
      | Graph.Ok r => session rest (Graph.final r) (Graph.world r)
      | Graph.Raise e => Graph.Raise e
      end
  end.

(** The collection state alone, run once per extraction result. *)
Fixpoint collect_turns (envs : list Nodes.Adapters) (state : BookingState)
  : BookingState :=
  match envs with
  | [] => state
  | env :: rest =>
      collect_turns rest (apply_update state (Nodes.collect_info_node env state))
  end.

(** A stored string field after one extraction result: a truthy new
    value replaces it, anything else leaves it. *)
Definition merged_str (stored new : option string) : option string :=
  if truthy_str new then new else stored.

Definition merged_int (stored new : option Z) : option Z :=
  if truthy_int new then new else stored.

(** Some [create_booking] call in the log returned success with
    reference [ref]. *)
Definition committed (w : Nodes.World) (ref : string) : Prop :=
  exists a, In (a, {| Apis.success := true; Apis.booking_ref := Some ref |})
               (Nodes.booking_log w).

End Session.

Import Py State Nodes.
Import Graph (Node, Ok, Raise, Run, step, run, invoke, turn, next_node,
              final, world, visited, recursion_limit).
Import Session.

(** ** Fixtures of the test suite *)

Module Fixtures.

(** [test_helpers.create_complete_booking_state()]. *)
Definition create_complete_booking_state : BookingState :=
  {| messages := [];
     restaurant_name := Some "Mario's Italian";
     State.date := Some "2025-12-01";
     State.time := Some "19:00";
     State.party_size := Some 4%Z;
     customer_name := Some "John Doe";
     State.phone := Some "555-1234";
     State.booking_ref := None;
     all_info_collected := true;
     awaiting_confirmation := false;
     user_confirmed := false;
     conversation_complete := false |}.

(** The complete state once the summary was shown and the user has
    typed a reply to it. *)
Definition awaiting_reply (text : string) : BookingState :=
  append_user_message
    (apply_update create_complete_booking_state
                  (confirm_node create_complete_booking_state))
    text.

(** An extraction result that mentions no field. *)
Definition no_fields (text : string) : BookingInfo.t :=
  {| BookingInfo.restaurant_name := None;
     BookingInfo.date := None;
     BookingInfo.time := None;
     BookingInfo.party_size := None;
     BookingInfo.customer_name := None;
     BookingInfo.phone := None;
     BookingInfo.response_message := text |}.

(** An extraction result that mentions the restaurant only. *)
Definition only_restaurant (r : option string) (text : string) : BookingInfo.t :=
  {| BookingInfo.restaurant_name := r;
     BookingInfo.date := None;
     BookingInfo.time := None;
     BookingInfo.party_size := None;
     BookingInfo.customer_name := None;
     BookingInfo.phone := None;
     BookingInfo.response_message := text |}.

Definition decision (proceed : bool) (changes : option string)
  : ConfirmationResponse.t :=
  {| ConfirmationResponse.user_wants_to_proceed := proceed;
     ConfirmationResponse.requested_changes := changes |}.

(** The dicts the mocked services return in [test_unit.py]. *)
Definition booking_ok (ref : string) : Apis.BookingResult :=
  {| Apis.success := true; Apis.booking_ref := Some ref |}.

Definition booking_failed : Apis.BookingResult :=
  {| Apis.success := false; Apis.booking_ref := None |}.

Definition fail_once_then (ref : string) (calls_before : nat) : Apis.BookingResult :=
  match calls_before with
  | O => booking_failed
  | S _ => booking_ok ref
  end.

(** Patched adapters: fixed replies of the model, the booking result
    chosen by the number of earlier calls, one fixed SMS outcome. *)
Definition patched (info : BookingInfo.t) (answer : ConfirmationResponse.t)
    (booking : nat -> Apis.BookingResult) (sms_ok : bool) : Adapters :=
  {| call_llm_booking_info := fun _ => info;
     call_llm_confirmation := fun _ => answer;
     call_create_booking := fun n _ => booking n;
     call_send_sms := fun _ _ => {| Apis.sms_success := sms_ok |} |}.

(** An extraction result that carries the six fields of the complete
    state. *)
Definition all_fields (text : string) : BookingInfo.t :=
  {| BookingInfo.restaurant_name := Some "Mario's Italian";
     BookingInfo.date := Some "2025-12-01";
     BookingInfo.time := Some "19:00";
     BookingInfo.party_size := Some 4%Z;
     BookingInfo.customer_name := Some "John Doe";
     BookingInfo.phone := Some "555-1234";
     BookingInfo.response_message := text |}.

(** A session that ran to its end: the user confirmed the complete
    state, the booking and the SMS went through. *)
Definition finished_session : BookingState :=
  match Graph.invoke
          (patched (no_fields "ok") (decision true None)
                   (fun _ => booking_ok "BK-12345") true)
          (awaiting_reply "yes") empty_world with
  | Graph.Ok r => Graph.final r
  | Graph.Raise _ => initial_state
  end.

(** The real mock services of [apis/] on a day when every random draw
    of the booking service falls under the failure rate. *)
Definition booking_service_down (info : BookingInfo.t)
    (answer : ConfirmationResponse.t) : Adapters :=
  {| call_llm_booking_info := fun _ => info;
     call_llm_confirmation := fun _ => answer;
     call_create_booking := fun _ a => Apis.create_booking true 12345 false a;
     call_send_sms := fun _ a => Apis.send_sms false false a |}.

(** The real mock services of [apis/], with every random draw lucky
    ([unlucky = false]) and the reference number fixed. *)
Definition mock_services (info : BookingInfo.t) (answer : ConfirmationResponse.t)
  : Adapters :=
  {| call_llm_booking_info := fun _ => info;
     call_llm_confirmation := fun _ => answer;
     call_create_booking := fun _ a => Apis.create_booking false 12345 false a;
     call_send_sms := fun _ a => Apis.send_sms false false a |}.

(** A whole session from the initial state: the user gives every
    detail at once, then confirms the summary. *)
Definition two_turns : list (Adapters * string) :=
  [ (mock_services (all_fields "Thanks, I have everything.") (decision true None),
     "Mario's Italian, 2025-12-01 at 19:00, 4 people, John Doe, 555-1234");
    (mock_services (no_fields "ok") (decision true None), "yes") ].

End Fixtures.

(** The six fields the booking needs, as the predicate reads them. *)
Definition all_six_present (s : BookingState) : Prop :=
  restaurant_name s <> None /\ State.date s <> None /\ State.time s <> None
  /\ State.party_size s <> None /\ customer_name s <> None /\ State.phone s <> None.

Definition some_absent (s : BookingState) : Prop :=
  restaurant_name s = None \/ State.date s = None \/ State.time s = None
  \/ State.party_size s = None \/ customer_name s = None \/ State.phone s = None.

(** The conjunction that [all(...)] computes in
    [should_continue_collecting]. *)
Definition all_filled (s : BookingState) : bool :=
  is_not_None (restaurant_name s) && is_not_None (State.date s)
  && is_not_None (State.time s) && is_not_None (State.party_size s)
  && is_not_None (customer_name s) && is_not_None (State.phone s).

(** The reply the booking service gives to the next call. *)
Definition next_booking_result (env : Adapters) (s : BookingState) (w : World)
  : Apis.BookingResult :=
  call_create_booking env (length (booking_log w)) (booking_args s).

(** The reply the SMS service gives to the next call. *)
Definition next_sms_result (env : Adapters) (s : BookingState) (w : World)
  : Apis.SmsResult :=
  call_send_sms env (length (sms_log w))
    {| Apis.sms_phone := State.phone s; Apis.sms_message := sms_message s |}.

(** The log after one more booking call. *)
Definition booking_logged (env : Adapters) (s : BookingState) (w : World) : World :=
  {| booking_log := booking_log w ++ [(booking_args s, next_booking_result env s w)];
     sms_log := sms_log w |}.

(** The log after one more SMS call. *)
Definition sms_logged (env : Adapters) (s : BookingState) (w : World) : World :=
  {| booking_log := booking_log w;
     sms_log := sms_log w
                ++ [({| Apis.sms_phone := State.phone s;
                        Apis.sms_message := sms_message s |},
                     next_sms_result env s w)] |}.

(** An upper bound on the number of nodes still to run, [n] included:
    the graph has no cycle. *)
Definition rank (n : Node) : nat :=
  match n with
  | Graph.router => 5
  | Graph.handle_confirmation => 4
  | Graph.create_booking => 3
  | Graph.collect_info => 2
  | Graph.send_sms => 2
  | Graph.confirm => 1
  | Graph.handle_booking_error => 1
  | Graph.handle_sms_error => 1
  | Graph.END => 0
  end.

(** The nodes of the confirmation path, [END] included. *)
Definition on_confirmation_path (n : Node) : bool :=
  match n with
  | Graph.router | Graph.collect_info | Graph.confirm => false
  | _ => true
  end.

(** The six booking fields of two states are the same. *)
Definition same_six (s s' : BookingState) : Prop :=
  restaurant_name s' = restaurant_name s
  /\ State.date s' = State.date s
  /\ State.time s' = State.time s
  /\ State.party_size s' = State.party_size s
  /\ customer_name s' = customer_name s
  /\ State.phone s' = State.phone s.

(** The history is not empty when the notification node is about to
    run (its router reads the last message). *)
Definition history_ready (n : Node) (s : BookingState) : Prop :=
  n = Graph.send_sms -> messages s <> [].

(** [booking_ref] is backed by the log: if it holds a reference, some
    call returned success with it. *)
Definition ref_is_committed (s : BookingState) (w : World) : Prop :=
  forall ref, State.booking_ref s = Some ref -> committed w ref.


(** ** One invoke, written out *)

(** What [check_sms_success] looks for in the last message. *)
Definition last_has_phrase (s : BookingState) : bool :=
  match last_item (messages s) with
  | Some m => contains "sent a confirmation SMS" (content m)
  | None => false
  end.

(** The run of [invoke] on a state that is not waiting for a
    confirmation, node by node. *)
Definition collect_outcome (env : Adapters) (s : BookingState) (w : World) : Run :=
  let s1 := apply_update s (collect_info_node env s) in
  if all_filled s1
  then {| final := apply_update s1 (confirm_node s1); world := w;
          visited := [Graph.router; Graph.collect_info; Graph.confirm] |}
  else {| final := s1; world := w;
          visited := [Graph.router; Graph.collect_info] |}.

(** The run of [invoke] on a state that is waiting for a confirmation,
    node by node. *)
Definition confirmation_outcome (env : Adapters) (s : BookingState) (w : World) : Run :=
  let s1 := apply_update s (handle_confirmation_node env s) in
  if user_confirmed s1 then
    let s2 := apply_update s1 (fst (create_booking_node env s1 w)) in
    let w1 := snd (create_booking_node env s1 w) in
    if truthy_str (State.booking_ref s2) then
      let s3 := apply_update s2 (fst (send_sms_node env s2 w1)) in
      let w2 := snd (send_sms_node env s2 w1) in
      if last_has_phrase s3 then
        {| final := s3; world := w2;
           visited := [ Graph.router; Graph.handle_confirmation;
                        Graph.create_booking; Graph.send_sms ] |}
      else
        {| final := apply_update s3 (handle_sms_error_node s3); world := w2;
           visited := [ Graph.router; Graph.handle_confirmation;
                        Graph.create_booking; Graph.send_sms;
                        Graph.handle_sms_error ] |}
    else
      {| final := apply_update s2 (fst (handle_booking_error_node env s2 w1));
         world := snd (handle_booking_error_node env s2 w1);
         visited := [ Graph.router; Graph.handle_confirmation;
                      Graph.create_booking; Graph.handle_booking_error ] |}
  else
    {| final := s1; world := w;
       visited := [Graph.router; Graph.handle_confirmation] |}.

Definition invoke_outcome (env : Adapters) (s : BookingState) (w : World) : Run :=
  if awaiting_confirmation s
  then confirmation_outcome env s w
  else collect_outcome env s w.


(** ** Vocabulary of the further properties *)

(** The three flags that route a session. *)
Definition flags (s : BookingState) : bool * bool * bool :=
  (awaiting_confirmation s, user_confirmed s, all_info_collected s).

(** The nodes that talk to the commit services, and the handler of the
    notification error. *)
Definition is_commit_node (n : Node) : bool :=
  match n with
  | Graph.create_booking | Graph.send_sms
  | Graph.handle_booking_error | Graph.handle_sms_error => true
  | _ => false
  end.

(** The messages of a list were all written by the assistant. *)
Definition all_from_assistant (ms : list BaseMessage) : Prop :=
  Forall (fun m => role m = AI) ms.

(** The six arguments of a booking call are all given. *)
Definition args_complete (a : Apis.BookingArgs) : Prop :=
  Apis.restaurant a <> None /\ Apis.date a <> None /\ Apis.time a <> None
  /\ Apis.party_size a <> None /\ Apis.name a <> None /\ Apis.phone a <> None.

(** What holds of the flags whenever the machine hands the state back. *)
Definition yield_invariant (s : BookingState) : Prop :=
  (all_info_collected s = true <-> all_six_present s)
  /\ (awaiting_confirmation s = true -> all_six_present s).

(** Every booking field that holds a value in [s] holds one in [s']. *)
Definition keeps_fields (s s' : BookingState) : Prop :=
  (restaurant_name s <> None -> restaurant_name s' <> None)
  /\ (State.date s <> None -> State.date s' <> None)
  /\ (State.time s <> None -> State.time s' <> None)
  /\ (State.party_size s <> None -> State.party_size s' <> None)
  /\ (customer_name s <> None -> customer_name s' <> None)
  /\ (State.phone s <> None -> State.phone s' <> None).

(** ** The adapters without patching *)

(** The names as nodes.py binds them when nothing is patched: the mock
    services of [apis/], called without [simulate_failure]. The random
    draws of each call are given by the number of calls made before:
    [booking_draw] gives [random.random() < BOOKING_FAILURE_RATE] and
    the number drawn for the reference, [sms_draw] gives
    [random.random() < SMS_FAILURE_RATE]. *)
Definition services
    (info : BookingState -> BookingInfo.t)
    (answer : BookingState -> ConfirmationResponse.t)
    (booking_draw : nat -> bool * Z) (sms_draw : nat -> bool) : Adapters :=
  {| call_llm_booking_info := info;
     call_llm_confirmation := answer;
     call_create_booking :=
       fun n a => Apis.create_booking (fst (booking_draw n)) (snd (booking_draw n))
                                      false a;
     call_send_sms := fun n a => Apis.send_sms (sms_draw n) false a |}.

(** Every character of [s] satisfies [p]. *)
Fixpoint all_chars (p : ascii -> bool) (s : string) : bool :=
  match s with
  | EmptyString => true
  | String c s' => p c && all_chars p s'
  end.

(** The characters of a printed int: the ten digits and the minus
    sign. *)
Definition digit_or_minus (c : ascii) : bool :=
  let n := nat_of_ascii c in
  Nat.eqb n 45 || (Nat.leb 48 n && Nat.leb n 57).

(** ** main.py *)

Module Main.

(** How [run_agent] ends: the user said goodbye ([break]), [input()]
    found the standard input exhausted, or the API key was missing. *)
Inductive Ending :=
| Goodbye
| EOFError
| MissingKey.

(** What is observed of a run of the command line: how it ended, the
    state and the log it was left with, every state handed to
    [app.invoke], oldest first, and every text printed after the word
    Agent in answer to a user line. Banners and the greeting are not
    recorded. *)
Record Cli := {
  ending : Ending;
  state : BookingState;
  log : World;
  invoked : list BookingState;
  responses : list string
}.

Definition exit_commands : list string := ["exit"; "quit"; "bye"; "goodbye"].
Definition cancel_commands : list string := ["cancel"; "cancel booking"; "undo"].
Definition yes_commands : list string := ["yes"; "y"; "sure"; "ok"].

(** [x in xs] on a list of strings. *)
Definition member (x : string) (xs : list string) : bool :=
  existsb (String.eqb x) xs.

(** [not s] for a string. *)
Definition is_empty (s : string) : bool :=
  match s with
  | EmptyString => true
  | String _ _ => false
  end.

Section Loop.

(** [str.strip] and [str.lower]. *)
Variable strip : string -> string.
Variable lower : string -> string.

(** The adapters as they answer during the n-th call of [app.invoke]. *)
Variable envs : nat -> Adapters.

(** The [while True] loop of [run_agent]. [stdin] holds the lines that
    [input()] will return, and [input()] raises EOFError once they are
    used up: outside the [try] this ends the run; inside it, the error
    is printed, the loop goes on, and the next [input()] ends the run.
    An error raised by [app.invoke], or by reading the last message of
    an empty history, is caught as well: the loop goes on with the
    state it has, which already holds the user's line. *)
Fixpoint loop (stdin : list string) (st : BookingState) (w : World)
    (seen : list BookingState) (said : list string) : Cli :=
  let stop e st w seen said :=
    {| ending := e; state := st; log := w; invoked := seen; responses := said |} in
  match stdin with
  | [] => stop EOFError st w seen said
  | line :: rest =>
      let user_input := strip line in
      if is_empty user_input then loop rest st w seen said
      else if member (lower user_input) exit_commands then stop Goodbye st w seen said
      else
        let st1 := append_user_message st user_input in
        let seen1 := (seen ++ [st1])%list in
        match Graph.invoke (envs (length seen)) st1 w with
        | Graph.Raise _ => loop rest st1 w seen1 said
        | Graph.Ok r =>
            let st2 := Graph.final r in
            let w2 := Graph.world r in
            match last_item (messages st2) with
            | None => loop rest st2 w2 seen1 said
            | Some m =>
                let said1 := (said ++ [content m])%list in
                if conversation_complete st2 then
                  match rest with
                  | [] => stop EOFError st2 w2 seen1 said1
                  | reply :: rest1 =>
                      let response := lower (strip reply) in
                      if member response cancel_commands then
                        match rest1 with
                        | [] => stop EOFError st2 w2 seen1 said1
                        | reply2 :: rest2 =>
                            let response2 := lower (strip reply2) in
                            if member response2 yes_commands
                            then loop rest2 initial_state w2 seen1 said1
                            else stop Goodbye st2 w2 seen1 said1
                        end
                      else if member response yes_commands
                      then loop rest1 initial_state w2 seen1 said1
                      else stop Goodbye st2 w2 seen1 said1
                  end
                else loop rest st2 w2 seen1 said1
            end
        end
  end.


End Loop.

End Main.


(** * Properties *)

(** ** The engine *)

Section Engine.
Variable env : Adapters.

(** [invoke] and [turn], as equations to rewrite with. *)
Lemma invoke_eq (s : BookingState) (w : World) :
  invoke env s w = run recursion_limit env Graph.router s w [].
Proof. reflexivity. Qed.

Lemma turn_eq (text : string) (s : BookingState) (w : World) :
  turn env text s w = invoke env (append_user_message s text) w.
Proof. reflexivity. Qed.

Lemma run_END (fuel : nat) (s : BookingState) (w : World) (seen : list Node) :
  run fuel env Graph.END s w seen
    = Ok {| final := s; world := w; visited := seen |}.
Proof. destruct fuel; reflexivity. Qed.

Lemma run_step (fuel : nat) (n n' : Node) (s s' : BookingState)
    (w w' : World) (seen : list Node) :
  n <> Graph.END ->
  step env n s w = Ok (n', s', w') ->
  run (S fuel) env n s w seen = run fuel env n' s' w' (seen ++ [n]).
Proof.
  intros Hn Hs. destruct n; try congruence; cbn [run]; rewrite Hs; reflexivity.
Qed.

Lemma run_raise (fuel : nat) (n : Node) (s : BookingState)
    (w : World) (seen : list Node) (e : Graph.Error) :
  n <> Graph.END ->
  step env n s w = Raise e ->
  run (S fuel) env n s w seen = Raise e.
Proof.
  intros Hn Hs. destruct n; try congruence; cbn [run]; rewrite Hs; reflexivity.
Qed.

End Engine.

Arguments run : simpl never.

(** ** Strings *)

Section Strings.

Lemma startswith_app (p s : string) : startswith p (p ++ s) = true.
Proof.
  induction p as [|a p IH]; simpl.
  - reflexivity.
  - rewrite Ascii.eqb_refl. exact IH.
Qed.

Lemma contains_here (p s : string) : contains p (p ++ s) = true.
Proof.
  destruct p as [|a p]; simpl.
  - destruct s; reflexivity.
  - rewrite Ascii.eqb_refl, startswith_app. reflexivity.
Qed.

Lemma contains_later (p a s : string) :
  contains p s = true -> contains p (a ++ s) = true.
Proof.
  intros H. induction a as [|c a IH]; simpl.
  - exact H.
  - rewrite IH. apply orb_true_r.
Qed.

Lemma contains_self (p : string) : contains p p = true.
Proof.
  destruct p as [|a p]; simpl.
  - reflexivity.
  - rewrite Ascii.eqb_refl.
    replace p with (p ++ EmptyString) at 2.
    + rewrite startswith_app. reflexivity.
    + induction p as [|b p IH]; simpl; [reflexivity | now rewrite IH].
Qed.

Lemma last_item_app (A : Type) (xs : list A) (x : A) :
  last_item (xs ++ [x]) = Some x.
Proof. unfold last_item. rewrite rev_app_distr. reflexivity. Qed.

End Strings.

(** ** Routing after collection *)

Lemma is_not_None_true (A : Type) (v : option A) :
  is_not_None v = true <-> v <> None.
Proof. destruct v; simpl; split; congruence. Qed.

Lemma is_not_None_false (A : Type) (v : option A) :
  is_not_None v = false <-> v = None.
Proof. destruct v; simpl; split; congruence. Qed.

Lemma should_continue_collecting_eq (s : BookingState) :
  should_continue_collecting s = if all_filled s then "confirm" else "collect".
Proof.
  unfold should_continue_collecting, all_filled. simpl.
  rewrite andb_true_r, !andb_assoc. reflexivity.
Qed.

Lemma all_filled_true (s : BookingState) : all_filled s = true <-> all_six_present s.
Proof.
  unfold all_filled, all_six_present.
  rewrite !andb_true_iff, !is_not_None_true. tauto.
Qed.

Lemma all_filled_false (s : BookingState) : all_filled s = false <-> some_absent s.
Proof.
  unfold all_filled, some_absent.
  rewrite !andb_false_iff, !is_not_None_false. tauto.
Qed.

(** C6. For every state, hence for each of the 64 absent/present
    combinations of the six fields, [should_continue_collecting] answers
    confirm exactly when all six fields are not [None], and answers
    collect exactly when at least one is [None]; the graph then goes to
    the confirm node, respectively to [END]. *)
Theorem should_continue_collecting_gating (s : BookingState) :
  (should_continue_collecting s = "confirm" <-> all_six_present s)
  /\ (should_continue_collecting s = "collect" <-> some_absent s)
  /\ (next_node Graph.collect_info s = Ok Graph.confirm <-> all_six_present s)
  /\ (next_node Graph.collect_info s = Ok Graph.END <-> some_absent s).
Proof.
  unfold next_node. simpl.
  rewrite should_continue_collecting_eq, <- all_filled_true, <- all_filled_false.
  destruct (all_filled s); simpl; repeat split; congruence.
Qed.


(** ** One step at each node *)

Section Steps.
Variable env : Adapters.

Lemma step_router (s : BookingState) (w : World) :
  step env Graph.router s w
    = Ok (if awaiting_confirmation s
          then Graph.handle_confirmation else Graph.collect_info, s, w).
Proof.
  unfold step, next_node. simpl. unfold router_node.
  destruct (awaiting_confirmation s); reflexivity.
Qed.

Lemma step_collect_info (s : BookingState) (w : World) :
  step env Graph.collect_info s w
    = let s' := apply_update s (collect_info_node env s) in
      Ok (if all_filled s' then Graph.confirm else Graph.END, s', w).
Proof.
  unfold step, next_node. cbn [Graph.node_function Graph.build_graph].
  rewrite should_continue_collecting_eq.
  destruct (all_filled _); reflexivity.
Qed.

Lemma step_confirm (s : BookingState) (w : World) :
  step env Graph.confirm s w
    = Ok (Graph.END, apply_update s (confirm_node s), w).
Proof. reflexivity. Qed.

Lemma step_handle_confirmation (s : BookingState) (w : World) :
  step env Graph.handle_confirmation s w
    = let s' := apply_update s (handle_confirmation_node env s) in
      Ok (if user_confirmed s' then Graph.create_booking else Graph.END, s', w).
Proof.
  unfold step, next_node. cbn [Graph.node_function Graph.build_graph].
  unfold check_confirmation_routing.
  destruct (user_confirmed _); reflexivity.
Qed.

Lemma step_create_booking (s : BookingState) (w : World) :
  step env Graph.create_booking s w
    = let s' := apply_update s (fst (create_booking_node env s w)) in
      Ok (if truthy_str (State.booking_ref s')
          then Graph.send_sms else Graph.handle_booking_error,
          s', snd (create_booking_node env s w)).
Proof.
  unfold step, next_node. cbn [Graph.node_function Graph.build_graph].
  destruct (create_booking_node env s w) as [u w']. cbn [fst snd].
  unfold Graph.check_booking_success.
  destruct (truthy_str _); reflexivity.
Qed.

Lemma step_handle_booking_error (s : BookingState) (w : World) :
  step env Graph.handle_booking_error s w
    = Ok (Graph.END,
          apply_update s (fst (handle_booking_error_node env s w)),
          snd (handle_booking_error_node env s w)).
Proof.
  unfold step, next_node. cbn [Graph.node_function Graph.build_graph].
  destruct (handle_booking_error_node env s w) as [u w']. reflexivity.
Qed.

Lemma step_send_sms (s : BookingState) (w : World) :
  step env Graph.send_sms s w
    = let s' := apply_update s (fst (send_sms_node env s w)) in
      match Graph.check_sms_success s' with
      | Ok label =>
          match Graph.lookup label
                  [ (Graph.END_name, Graph.END);
                    ("handle_sms_error", Graph.handle_sms_error) ] with
          | Ok n' => Ok (n', s', snd (send_sms_node env s w))
          | Raise e => Raise e
          end
      | Raise e => Raise e
      end.
Proof.
  unfold step, next_node. cbn [Graph.node_function Graph.build_graph].
  destruct (send_sms_node env s w) as [u w']. cbn [fst snd].
  destruct (Graph.check_sms_success _); [|reflexivity].
  destruct (Graph.lookup _ _); reflexivity.
Qed.

Lemma step_handle_sms_error (s : BookingState) (w : World) :
  step env Graph.handle_sms_error s w
    = Ok (Graph.END, apply_update s (handle_sms_error_node s), w).
Proof. reflexivity. Qed.

End Steps.

(** ** The confirmation decision *)

(** What the confirmation node writes when the user did not confirm. *)
Lemma handle_confirmation_rejected (env : Adapters) (s : BookingState) :
  ConfirmationResponse.user_wants_to_proceed (call_llm_confirmation env s) = false ->
  let s' := apply_update s (handle_confirmation_node env s) in
  awaiting_confirmation s' = false /\ user_confirmed s' = false.
Proof.
  intros Hno. unfold handle_confirmation_node. rewrite Hno.
  destruct (ConfirmationResponse.requested_changes (call_llm_confirmation env s))
    as [[|c changes]|]; simpl; split; reflexivity.
Qed.

(** C7. Whatever the state before, when the classifier answers with
    [user_wants_to_proceed = False] (changes, a flat no or an unclear
    reply, with or without text), the run of the confirmation-handling
    node ends at once with [awaiting_confirmation] and [user_confirmed]
    both false, and the router sends the next user turn to
    [collect_info]. *)
Theorem rejection_returns_to_collection
    (env : Adapters) (s : BookingState) (w : World) (seen : list Node) :
  ConfirmationResponse.user_wants_to_proceed (call_llm_confirmation env s) = false ->
  exists s',
    run recursion_limit env Graph.handle_confirmation s w seen
      = Ok {| final := s'; world := w;
              visited := (seen ++ [Graph.handle_confirmation])%list |}
    /\ s' = apply_update s (handle_confirmation_node env s)
    /\ awaiting_confirmation s' = false
    /\ user_confirmed s' = false
    /\ check_confirmation_routing s' = "collect"
    /\ forall text,
         next_node Graph.router (append_user_message s' text) = Ok Graph.collect_info.
Proof.
  intros Hno.
  destruct (handle_confirmation_rejected env s Hno) as [Ha Hu].
  exists (apply_update s (handle_confirmation_node env s)).
  repeat split; try assumption.
  - unfold recursion_limit.
    erewrite run_step;
      [ | discriminate | rewrite step_handle_confirmation; cbv zeta; rewrite Hu; reflexivity ].
    apply run_END.
  - unfold check_confirmation_routing. rewrite Hu. reflexivity.
  - intros text. unfold next_node. simpl. unfold router_node. simpl.
    rewrite Ha. reflexivity.
Qed.

(** Witness of C7: the user answers the summary with a flat no. *)
Lemma rejection_returns_to_collection_witness :
  let env := Fixtures.patched (Fixtures.no_fields "ok")
               (Fixtures.decision false
                  (Some "Please specify what changes you would like to make to the booking."))
               (fun _ => Fixtures.booking_failed) true in
  let s := Fixtures.awaiting_reply "no" in
  ConfirmationResponse.user_wants_to_proceed (call_llm_confirmation env s) = false
  /\ exists s',
      run recursion_limit env Graph.handle_confirmation s empty_world []
        = Ok {| final := s'; world := empty_world;
                visited := ([] ++ [Graph.handle_confirmation])%list |}
      /\ s' = apply_update s (handle_confirmation_node env s)
      /\ awaiting_confirmation s' = false
      /\ user_confirmed s' = false
      /\ check_confirmation_routing s' = "collect"
      /\ forall text,
           next_node Graph.router (append_user_message s' text) = Ok Graph.collect_info.
Proof.
  split; [reflexivity | apply rejection_returns_to_collection; reflexivity].
Defined.

(** C10. When the classifier answers [user_wants_to_proceed = False]
    with [requested_changes] absent or empty, the confirmation-handling
    node still sets [user_confirmed] and [awaiting_confirmation] to
    false, but the message history is left as it was: the run ends
    there, no service is called, and the caller gets no new assistant
    message. *)
Theorem silent_rejection
    (env : Adapters) (s : BookingState) (w : World) (seen : list Node) :
  ConfirmationResponse.user_wants_to_proceed (call_llm_confirmation env s) = false ->
  truthy_str (ConfirmationResponse.requested_changes (call_llm_confirmation env s)) = false ->
  handle_confirmation_node env s
    = [K_user_confirmed false; K_awaiting_confirmation false]
  /\ exists s',
      run recursion_limit env Graph.handle_confirmation s w seen
        = Ok {| final := s'; world := w;
                visited := (seen ++ [Graph.handle_confirmation])%list |}
      /\ user_confirmed s' = false
      /\ awaiting_confirmation s' = false
      /\ messages s' = messages s.
Proof.
  intros Hno Hempty.
  assert (Hu : handle_confirmation_node env s
               = [K_user_confirmed false; K_awaiting_confirmation false]).
  { unfold handle_confirmation_node. rewrite Hno.
    destruct (ConfirmationResponse.requested_changes (call_llm_confirmation env s))
      as [changes|]; [|reflexivity].
    rewrite Hempty. reflexivity. }
  split; [exact Hu|].
  exists (apply_update s (handle_confirmation_node env s)).
  split.
  - unfold recursion_limit.
    erewrite run_step;
      [ | discriminate | rewrite step_handle_confirmation, Hu; reflexivity ].
    rewrite Hu. apply run_END.
  - rewrite Hu. repeat split.
Qed.

(** Witness of C10: a rejection with an empty [requested_changes]. *)
Lemma silent_rejection_witness :
  let env := Fixtures.patched (Fixtures.no_fields "ok")
               (Fixtures.decision false (Some EmptyString))
               (fun _ => Fixtures.booking_failed) true in
  let s := Fixtures.awaiting_reply "hmm" in
  ConfirmationResponse.user_wants_to_proceed (call_llm_confirmation env s) = false
  /\ truthy_str (ConfirmationResponse.requested_changes (call_llm_confirmation env s)) = false
  /\ handle_confirmation_node env s
       = [K_user_confirmed false; K_awaiting_confirmation false]
  /\ exists s',
      run recursion_limit env Graph.handle_confirmation s empty_world []
        = Ok {| final := s'; world := empty_world;
                visited := ([] ++ [Graph.handle_confirmation])%list |}
      /\ user_confirmed s' = false
      /\ awaiting_confirmation s' = false
      /\ messages s' = messages s.
Proof.
  split; [reflexivity | split; [reflexivity |]].
  apply silent_rejection; reflexivity.
Defined.

(** ** The collection state *)

Lemma merged_str_sticky (stored new : option string) :
  stored <> None -> merged_str stored new <> None.
Proof.
  unfold merged_str. destruct new as [[|c v]|]; simpl; congruence.
Qed.

Lemma merged_int_sticky (stored new : option Z) :
  stored <> None -> merged_int stored new <> None.
Proof.
  unfold merged_int. destruct new as [n|]; simpl; [|congruence].
  destruct (Z.eqb n 0); simpl; congruence.
Qed.

(** What one run of the collection state leaves in the six fields, in
    [booking_ref] and in the flags. *)
Lemma collect_info_merge (env : Adapters) (s : BookingState) :
  let response := call_llm_booking_info env s in
  let s' := apply_update s (collect_info_node env s) in
  restaurant_name s'
    = merged_str (restaurant_name s) (BookingInfo.restaurant_name response)
  /\ State.date s' = merged_str (State.date s) (BookingInfo.date response)
  /\ State.time s' = merged_str (State.time s) (BookingInfo.time response)
  /\ State.party_size s'
     = merged_int (State.party_size s) (BookingInfo.party_size response)
  /\ customer_name s'
     = merged_str (customer_name s) (BookingInfo.customer_name response)
  /\ State.phone s' = merged_str (State.phone s) (BookingInfo.phone response)
  /\ State.booking_ref s' = State.booking_ref s
  /\ conversation_complete s' = conversation_complete s
  /\ messages s'
     = (messages s ++ [AIMessage (BookingInfo.response_message response)])%list.
Proof.
  unfold collect_info_node.
  destruct (call_llm_booking_info env s) as [r d t p c ph msg].
  cbn [BookingInfo.restaurant_name BookingInfo.date BookingInfo.time
       BookingInfo.party_size BookingInfo.customer_name BookingInfo.phone
       BookingInfo.response_message].
  destruct r as [[|? ?]|], d as [[|? ?]|], t as [[|? ?]|], p as [[|?|?]|],
           c as [[|? ?]|], ph as [[|? ?]|];
    cbn; repeat split; reflexivity.
Qed.

(** No field that holds a value is cleared by a run of the collection
    state. *)
Lemma collect_info_keeps (env : Adapters) (s : BookingState) :
  let s' := apply_update s (collect_info_node env s) in
  (restaurant_name s <> None -> restaurant_name s' <> None)
  /\ (State.date s <> None -> State.date s' <> None)
  /\ (State.time s <> None -> State.time s' <> None)
  /\ (State.party_size s <> None -> State.party_size s' <> None)
  /\ (customer_name s <> None -> customer_name s' <> None)
  /\ (State.phone s <> None -> State.phone s' <> None).
Proof.
  destruct (collect_info_merge env s) as (Hr & Hd & Ht & Hp & Hc & Hph & _).
  cbv zeta. rewrite Hr, Hd, Ht, Hp, Hc, Hph.
  repeat split; auto using merged_str_sticky, merged_int_sticky.
Qed.

(** C8, as the code has it. For every sequence of extraction results
    run through the collection state, a field that holds a value still
    holds one at the end: no result clears it. In each run a field of
    the result that is truthy (a non-empty string, a non-zero party
    size) replaces the stored value; a field that is [None], an empty
    string or zero leaves the stored value as it is. *)
Theorem field_monotonicity (envs : list Adapters) (s : BookingState) :
  ((restaurant_name s <> None -> restaurant_name (collect_turns envs s) <> None)
   /\ (State.date s <> None -> State.date (collect_turns envs s) <> None)
   /\ (State.time s <> None -> State.time (collect_turns envs s) <> None)
   /\ (State.party_size s <> None -> State.party_size (collect_turns envs s) <> None)
   /\ (customer_name s <> None -> customer_name (collect_turns envs s) <> None)
   /\ (State.phone s <> None -> State.phone (collect_turns envs s) <> None))
  /\ forall env : Adapters,
       let response := call_llm_booking_info env s in
       let s' := apply_update s (collect_info_node env s) in
       restaurant_name s'
         = (if truthy_str (BookingInfo.restaurant_name response)
            then BookingInfo.restaurant_name response else restaurant_name s)
       /\ State.date s'
          = (if truthy_str (BookingInfo.date response)
             then BookingInfo.date response else State.date s)
       /\ State.time s'
          = (if truthy_str (BookingInfo.time response)
             then BookingInfo.time response else State.time s)
       /\ State.party_size s'
          = (if truthy_int (BookingInfo.party_size response)
             then BookingInfo.party_size response else State.party_size s)
       /\ customer_name s'
          = (if truthy_str (BookingInfo.customer_name response)
             then BookingInfo.customer_name response else customer_name s)
       /\ State.phone s'
          = (if truthy_str (BookingInfo.phone response)
             then BookingInfo.phone response else State.phone s).
Proof.
  split.
  - revert s. induction envs as [|env envs IH]; intros s.
    + simpl. tauto.
    + simpl.
      destruct (collect_info_keeps env s) as (Kr & Kd & Kt & Kp & Kc & Kph).
      destruct (IH (apply_update s (collect_info_node env s)))
        as (Ir & Id & It & Ip & Ic & Iph).
      repeat split; auto.
  - intros env.
    destruct (collect_info_merge env s) as (Hr & Hd & Ht & Hp & Hc & Hph & _).
    repeat split; assumption.
Qed.

(** Witness of C8: two results in a row, neither mentions the
    restaurant; the second changes nothing at all. *)
Lemma field_monotonicity_witness :
  let quiet := Fixtures.patched (Fixtures.no_fields "What date?")
                 (Fixtures.decision true None)
                 (fun _ => Fixtures.booking_failed) true in
  restaurant_name Fixtures.create_complete_booking_state <> None
  /\ restaurant_name
       (collect_turns [quiet; quiet] Fixtures.create_complete_booking_state)
     <> None.
Proof.
  split; [discriminate |].
  apply (proj1 (field_monotonicity _ _)). discriminate.
Defined.

(** C8 as the spec words it fails: a result that carries the restaurant
    as an empty string (present, not [None]) does not overwrite the
    stored restaurant, and a party size of zero does not overwrite the
    stored party size. *)
Lemma present_but_empty_does_not_overwrite :
  let info :=
    {| BookingInfo.restaurant_name := Some EmptyString;
       BookingInfo.date := None;
       BookingInfo.time := None;
       BookingInfo.party_size := Some 0%Z;
       BookingInfo.customer_name := None;
       BookingInfo.phone := None;
       BookingInfo.response_message := "Which restaurant?" |} in
  let env := Fixtures.patched info (Fixtures.decision true None)
               (fun _ => Fixtures.booking_failed) true in
  let s := Fixtures.create_complete_booking_state in
  let s' := apply_update s (collect_info_node env s) in
  BookingInfo.restaurant_name (call_llm_booking_info env s) = Some EmptyString
  /\ restaurant_name s' = Some "Mario's Italian"
  /\ restaurant_name s' <> BookingInfo.restaurant_name (call_llm_booking_info env s)
  /\ BookingInfo.party_size (call_llm_booking_info env s) = Some 0%Z
  /\ State.party_size s' = Some 4%Z.
Proof.
  cbv zeta. repeat split; try reflexivity. discriminate.
Qed.

(** ** The commit and notification nodes, by outcome of the call *)

Section Outcomes.
Variable env : Adapters.

Lemma create_booking_node_failure (s : BookingState) (w : World) :
  Apis.success (next_booking_result env s w) = false ->
  create_booking_node env s w = ([K_booking_ref None], booking_logged env s w).
Proof.
  unfold next_booking_result, create_booking_node, create_booking.
  intros H. rewrite H. reflexivity.
Qed.

Lemma create_booking_node_success (s : BookingState) (w : World) :
  Apis.success (next_booking_result env s w) = true ->
  create_booking_node env s w
    = ([ K_booking_ref (Apis.booking_ref (next_booking_result env s w));
         K_messages
           [AIMessage ("Perfect! I've created your booking. Reference: "
                       ++ fmt_str (Apis.booking_ref (next_booking_result env s w)))] ],
       booking_logged env s w).
Proof.
  unfold next_booking_result, create_booking_node, create_booking.
  intros H. rewrite H. reflexivity.
Qed.

Lemma handle_booking_error_node_failure (s : BookingState) (w : World) :
  Apis.success (next_booking_result env s w) = false ->
  handle_booking_error_node env s w
    = ([ K_messages [AIMessage (booking_error_message s)];
         K_conversation_complete true ],
       booking_logged env s w).
Proof.
  unfold next_booking_result, handle_booking_error_node, create_booking.
  intros H. rewrite H. reflexivity.
Qed.

Lemma handle_booking_error_node_success (s : BookingState) (w : World) :
  Apis.success (next_booking_result env s w) = true ->
  handle_booking_error_node env s w
    = ([ K_booking_ref (Apis.booking_ref (next_booking_result env s w));
         K_messages
           [AIMessage ("Success! Your booking has been created. Reference: "
                       ++ fmt_str (Apis.booking_ref (next_booking_result env s w)))] ],
       booking_logged env s w).
Proof.
  unfold next_booking_result, handle_booking_error_node, create_booking.
  intros H. rewrite H. reflexivity.
Qed.

Lemma send_sms_node_failure (s : BookingState) (w : World) :
  Apis.sms_success (next_sms_result env s w) = false ->
  send_sms_node env s w = ([], sms_logged env s w).
Proof.
  unfold next_sms_result, send_sms_node, send_sms.
  intros H. rewrite H. reflexivity.
Qed.

Lemma send_sms_node_success (s : BookingState) (w : World) :
  Apis.sms_success (next_sms_result env s w) = true ->
  send_sms_node env s w
    = ([ K_messages [AIMessage sms_sent_message];
         K_conversation_complete true ],
       sms_logged env s w).
Proof.
  unfold next_sms_result, send_sms_node, send_sms.
  intros H. rewrite H. reflexivity.
Qed.

(** The confirmation node when the user confirms. *)
Lemma handle_confirmation_node_proceed (s : BookingState) :
  ConfirmationResponse.user_wants_to_proceed (call_llm_confirmation env s) = true ->
  handle_confirmation_node env s
    = [K_user_confirmed true; K_awaiting_confirmation false].
Proof.
  unfold handle_confirmation_node. intros H. rewrite H.
  destruct (ConfirmationResponse.requested_changes _); reflexivity.
Qed.

End Outcomes.

(** ** Booking: the attempt and its single retry *)

(** One step of a run whose node is known; [eqn] rewrites the step. *)
Ltac run_node eqn :=
  erewrite run_step; [ | discriminate | eqn; simpl; reflexivity ].

(** C4. When the user has confirmed and every [create_booking] call
    fails, one [invoke] calls [create_booking] exactly twice, the second
    time with the arguments of the first, sends no SMS, and ends with
    [conversation_complete = True] and [booking_ref] equal to [None]. *)
Theorem booking_retry_bound (env : Adapters) (s : BookingState) (w : World) :
  awaiting_confirmation s = true ->
  ConfirmationResponse.user_wants_to_proceed (call_llm_confirmation env s) = true ->
  (forall n a, Apis.success (call_create_booking env n a) = false) ->
  exists (r : Run) (first second : Apis.BookingResult),
    invoke env s w = Ok r
    /\ booking_log (world r)
       = (booking_log w ++ [(booking_args s, first); (booking_args s, second)])%list
    /\ Apis.success first = false
    /\ Apis.success second = false
    /\ sms_log (world r) = sms_log w
    /\ conversation_complete (final r) = true
    /\ State.booking_ref (final r) = None
    /\ visited r = [ Graph.router; Graph.handle_confirmation;
                     Graph.create_booking; Graph.handle_booking_error ]
    /\ messages (final r)
       = (messages s ++ [AIMessage (booking_error_message s)])%list.
Proof.
  intros Haw Hyes Hfail.
  pose (s1 := apply_update s [K_user_confirmed true; K_awaiting_confirmation false]).
  pose (s2 := apply_update s1 [K_booking_ref None]).
  pose (w1 := booking_logged env s1 w).
  eexists. exists (next_booking_result env s1 w), (next_booking_result env s2 w1).
  split.
  - rewrite invoke_eq. unfold recursion_limit.
    run_node ltac:(rewrite step_router, Haw).
    run_node ltac:(rewrite step_handle_confirmation,
                     (handle_confirmation_node_proceed env s Hyes)).
    run_node ltac:(rewrite step_create_booking,
                     create_booking_node_failure by apply Hfail).
    run_node ltac:(rewrite step_handle_booking_error,
                     handle_booking_error_node_failure by apply Hfail).
    apply run_END.
  - simpl. rewrite <- app_assoc. simpl.
    repeat split; try reflexivity; apply Hfail.
Qed.

(** Witness of C4: the mock booking service with every draw unlucky. *)
Lemma booking_retry_bound_witness :
  let env := Fixtures.booking_service_down (Fixtures.no_fields "ok")
               (Fixtures.decision true None) in
  let s := Fixtures.awaiting_reply "yes" in
  awaiting_confirmation s = true
  /\ ConfirmationResponse.user_wants_to_proceed (call_llm_confirmation env s) = true
  /\ (forall n a, Apis.success (call_create_booking env n a) = false)
  /\ exists (r : Run) (first second : Apis.BookingResult),
      invoke env s empty_world = Ok r
      /\ booking_log (world r)
         = (booking_log empty_world
            ++ [(booking_args s, first); (booking_args s, second)])%list
      /\ Apis.success first = false
      /\ Apis.success second = false
      /\ sms_log (world r) = sms_log empty_world
      /\ conversation_complete (final r) = true
      /\ State.booking_ref (final r) = None
      /\ visited r = [ Graph.router; Graph.handle_confirmation;
                       Graph.create_booking; Graph.handle_booking_error ]
      /\ messages (final r)
         = (messages s ++ [AIMessage (booking_error_message s)])%list.
Proof.
  assert (Hdown : forall n a,
            Apis.success
              (call_create_booking
                 (Fixtures.booking_service_down (Fixtures.no_fields "ok")
                    (Fixtures.decision true None)) n a) = false).
  { intros n a. simpl. unfold Apis.create_booking.
    rewrite orb_true_r. reflexivity. }
  split; [reflexivity | split; [reflexivity | split; [exact Hdown |]]].
  apply booking_retry_bound; [reflexivity | reflexivity | exact Hdown].
Defined.

(** When the first attempt fails and the retry succeeds, the run stores
    the reference, says so, and ends: the edge out of the error handler
    goes to [END], no SMS is sent and [conversation_complete] is not
    written. *)
Lemma retry_success_ends_run (env : Adapters) (s : BookingState) (w : World) :
  let s1 := apply_update s [K_booking_ref None] in
  let w1 := booking_logged env s w in
  Apis.success (next_booking_result env s w) = false ->
  Apis.success (next_booking_result env s1 w1) = true ->
  exists r : Run,
    run recursion_limit env Graph.create_booking s w [] = Ok r
    /\ State.booking_ref (final r) = Apis.booking_ref (next_booking_result env s1 w1)
    /\ visited r = [Graph.create_booking; Graph.handle_booking_error]
    /\ sms_log (world r) = sms_log w
    /\ conversation_complete (final r) = conversation_complete s.
Proof.
  intros s1 w1 Hfirst Hsecond. eexists. split.
  - unfold recursion_limit.
    run_node ltac:(rewrite step_create_booking,
                     create_booking_node_failure by exact Hfirst).
    run_node ltac:(rewrite step_handle_booking_error,
                     handle_booking_error_node_success by exact Hsecond).
    apply run_END.
  - simpl. repeat split.
Qed.

(** C1, evaluated. The commit adapter fails once and then succeeds with
    BK-67890: the run stores the reference and emits the success
    message, but it ends right after the error handler: [send_sms] is
    never called and the session is left open. When the first attempt
    succeeds with the same reference, the run goes on to [send_sms] and
    completes the conversation: the two runs are not alike. *)
Theorem retry_success_skips_notification :
  let s := Fixtures.awaiting_reply "yes" in
  let retried := Fixtures.patched (Fixtures.no_fields "ok")
                   (Fixtures.decision true None)
                   (Fixtures.fail_once_then "BK-67890") true in
  let direct := Fixtures.patched (Fixtures.no_fields "ok")
                  (Fixtures.decision true None)
                  (fun _ => Fixtures.booking_ok "BK-67890") true in
  (exists r : Run,
     invoke retried s empty_world = Ok r
     /\ map snd (booking_log (world r))
        = [Fixtures.booking_failed; Fixtures.booking_ok "BK-67890"]
     /\ State.booking_ref (final r) = Some "BK-67890"
     /\ last_item (messages (final r))
        = Some (AIMessage "Success! Your booking has been created. Reference: BK-67890")
     /\ visited r = [ Graph.router; Graph.handle_confirmation;
                      Graph.create_booking; Graph.handle_booking_error ]
     /\ sms_log (world r) = []
     /\ conversation_complete (final r) = false)
  /\ (exists r : Run,
        invoke direct s empty_world = Ok r
        /\ State.booking_ref (final r) = Some "BK-67890"
        /\ visited r = [ Graph.router; Graph.handle_confirmation;
                         Graph.create_booking; Graph.send_sms ]
        /\ length (sms_log (world r)) = 1
        /\ conversation_complete (final r) = true).
Proof.
  split; eexists; (split; [vm_compute; reflexivity | repeat split]).
Qed.

(** ** Routing after the notification *)

Lemma sms_sent_message_has_phrase :
  contains "sent a confirmation SMS" sms_sent_message = true.
Proof. vm_compute. reflexivity. Qed.

(** C3, as the code has it. After [send_sms_node] the next node is
    chosen by [check_sms_success] from the text of the last message of
    the history: [END] when it contains the words sent a confirmation
    SMS, [handle_sms_error] when it does not. A successful call appends
    a message with these words, so the run reaches [END] with the
    conversation complete. A failed call appends nothing: the message
    that was last before is read, and the run goes to the error handler
    exactly when that message does not contain the words. *)
Theorem notification_routing_reads_last_message
    (env : Adapters) (s : BookingState) (w : World) (m : BaseMessage) :
  last_item (messages s) = Some m ->
  exists (n' : Node) (s' : BookingState) (m' : BaseMessage),
    step env Graph.send_sms s w = Ok (n', s', sms_logged env s w)
    /\ last_item (messages s') = Some m'
    /\ (n' = Graph.END <-> contains "sent a confirmation SMS" (content m') = true)
    /\ (n' = Graph.handle_sms_error
        <-> contains "sent a confirmation SMS" (content m') = false)
    /\ (Apis.sms_success (next_sms_result env s w) = true ->
        m' = AIMessage sms_sent_message
        /\ n' = Graph.END
        /\ conversation_complete s' = true)
    /\ (Apis.sms_success (next_sms_result env s w) = false ->
        s' = s /\ m' = m).
Proof.
  intros Hlast.
  destruct (Apis.sms_success (next_sms_result env s w)) eqn:Hsms.
  - exists Graph.END,
      (apply_update s [K_messages [AIMessage sms_sent_message];
                       K_conversation_complete true]),
      (AIMessage sms_sent_message).
    split.
    { rewrite step_send_sms, (send_sms_node_success env s w Hsms).
      cbn [fst snd]. unfold Graph.check_sms_success.
      cbn [apply_update fold_left apply_entry messages].
      rewrite last_item_app. cbn [content AIMessage].
      rewrite sms_sent_message_has_phrase. reflexivity. }
    cbn [apply_update fold_left apply_entry messages conversation_complete].
    rewrite last_item_app. cbn [content AIMessage].
    rewrite sms_sent_message_has_phrase.
    repeat split; try reflexivity; try discriminate.
  - exists (if contains "sent a confirmation SMS" (content m)
            then Graph.END else Graph.handle_sms_error), s, m.
    split.
    { rewrite step_send_sms, (send_sms_node_failure env s w Hsms).
      cbn [fst snd apply_update fold_left]. unfold Graph.check_sms_success.
      rewrite Hlast.
      destruct (contains "sent a confirmation SMS" (content m)); reflexivity. }
    split; [exact Hlast|].
    destruct (contains "sent a confirmation SMS" (content m));
      repeat split; try reflexivity; try discriminate; intros; discriminate.
Qed.

(** Witness of C3: the history ends with the booking message when the
    SMS is sent. *)
Lemma notification_routing_reads_last_message_witness :
  let env := Fixtures.mock_services (Fixtures.no_fields "ok")
               (Fixtures.decision true None) in
  let m := AIMessage "Perfect! I've created your booking. Reference: BK-12345" in
  let s := apply_update Fixtures.create_complete_booking_state
             [K_booking_ref (Some "BK-12345"); K_messages [m]] in
  last_item (messages s) = Some m
  /\ exists (n' : Node) (s' : BookingState) (m' : BaseMessage),
      step env Graph.send_sms s empty_world = Ok (n', s', sms_logged env s empty_world)
      /\ last_item (messages s') = Some m'
      /\ (n' = Graph.END <-> contains "sent a confirmation SMS" (content m') = true)
      /\ (n' = Graph.handle_sms_error
          <-> contains "sent a confirmation SMS" (content m') = false)
      /\ (Apis.sms_success (next_sms_result env s empty_world) = true ->
          m' = AIMessage sms_sent_message
          /\ n' = Graph.END
          /\ conversation_complete s' = true)
      /\ (Apis.sms_success (next_sms_result env s empty_world) = false ->
          s' = s /\ m' = m).
Proof.
  split; [reflexivity |].
  apply notification_routing_reads_last_message. reflexivity.
Defined.

(** C3 as the spec words it fails: the commit adapter hands out a
    reference that happens to hold the words the router looks for, the
    SMS call fails, and the run still takes the edge to [END]: the
    error handler does not run and the conversation is not completed. *)
Lemma failed_sms_routed_to_END :
  let env := Fixtures.patched (Fixtures.no_fields "ok")
               (Fixtures.decision true None)
               (fun _ => Fixtures.booking_ok "sent a confirmation SMS") false in
  let s := Fixtures.awaiting_reply "yes" in
  exists r : Run,
    invoke env s empty_world = Ok r
    /\ map snd (sms_log (world r)) = [{| Apis.sms_success := false |}]
    /\ visited r = [ Graph.router; Graph.handle_confirmation;
                     Graph.create_booking; Graph.send_sms ]
    /\ conversation_complete (final r) = false.
Proof.
  cbv zeta. eexists. split; [vm_compute; reflexivity | repeat split].
Qed.

(** ** The notification error handler *)

(** Find [p] inside a right-nested concatenation. *)
Ltac find_part :=
  repeat first [ apply contains_here | apply contains_self | apply contains_later ].

(** What the text of the error handler holds. *)
Lemma sms_error_message_parts (s : BookingState) :
  startswith "Your booking is confirmed!" (sms_error_message s) = true
  /\ contains (fmt_str (State.booking_ref s)) (sms_error_message s) = true
  /\ contains (fmt_str (restaurant_name s)) (sms_error_message s) = true
  /\ contains (fmt_str (State.date s)) (sms_error_message s) = true
  /\ contains (fmt_str (State.time s)) (sms_error_message s) = true
  /\ contains (fmt_int (State.party_size s)) (sms_error_message s) = true.
Proof.
  unfold sms_error_message.
  split; [apply startswith_app |].
  repeat split; find_part.
Qed.

(** C5, as the code has it. The user has confirmed, the booking call
    succeeds with a non-empty reference [ref], the booking message does
    not itself hold the words the router looks for, and the SMS call
    fails. Then [send_sms] is called once and not again, the error
    handler runs and the run ends with [conversation_complete = True]
    and [booking_ref] still [ref]. The last message opens with Your
    booking is confirmed! and holds the reference, the restaurant, the
    date, the time and the party size; the customer's name and phone
    are not part of it. *)
Theorem notification_failure_keeps_booking
    (env : Adapters) (s : BookingState) (w : World) (ref : string) :
  awaiting_confirmation s = true ->
  ConfirmationResponse.user_wants_to_proceed (call_llm_confirmation env s) = true ->
  call_create_booking env (length (booking_log w)) (booking_args s)
    = {| Apis.success := true; Apis.booking_ref := Some ref |} ->
  truthy_str (Some ref) = true ->
  contains "sent a confirmation SMS"
           ("Perfect! I've created your booking. Reference: " ++ ref) = false ->
  (forall n a, Apis.sms_success (call_send_sms env n a) = false) ->
  exists (r : Run) (text : string),
    invoke env s w = Ok r
    /\ visited r = [ Graph.router; Graph.handle_confirmation; Graph.create_booking;
                     Graph.send_sms; Graph.handle_sms_error ]
    /\ length (sms_log (world r)) = S (length (sms_log w))
    /\ length (booking_log (world r)) = S (length (booking_log w))
    /\ conversation_complete (final r) = true
    /\ State.booking_ref (final r) = Some ref
    /\ last_item (messages (final r)) = Some (AIMessage text)
    /\ startswith "Your booking is confirmed!" text = true
    /\ contains ref text = true
    /\ contains (fmt_str (restaurant_name s)) text = true
    /\ contains (fmt_str (State.date s)) text = true
    /\ contains (fmt_str (State.time s)) text = true
    /\ contains (fmt_int (State.party_size s)) text = true.
Proof.
  intros Haw Hyes Hbook Href Hphrase Hsms.
  pose (s1 := apply_update s [K_user_confirmed true; K_awaiting_confirmation false]).
  pose (s2 := apply_update s1
                [ K_booking_ref (Some ref);
                  K_messages [AIMessage ("Perfect! I've created your booking. Reference: "
                                         ++ ref)] ]).
  assert (Hres : next_booking_result env s1 w
                 = {| Apis.success := true; Apis.booking_ref := Some ref |})
    by exact Hbook.
  assert (Hok : Apis.success (next_booking_result env s1 w) = true)
    by (rewrite Hres; reflexivity).
  assert (Hstep2 : step env Graph.create_booking s1 w
                   = Ok (Graph.send_sms, s2, booking_logged env s1 w)).
  { rewrite step_create_booking, (create_booking_node_success env s1 w Hok), Hres.
    cbn [fst snd Apis.booking_ref fmt_str]. fold s2.
    replace (State.booking_ref s2) with (Some ref) by reflexivity.
    rewrite Href. reflexivity. }
  assert (Hstep3 : step env Graph.send_sms s2 (booking_logged env s1 w)
                   = Ok (Graph.handle_sms_error, s2,
                         sms_logged env s2 (booking_logged env s1 w))).
  { rewrite step_send_sms, send_sms_node_failure by apply Hsms.
    cbn [fst snd apply_update fold_left]. unfold Graph.check_sms_success.
    replace (messages s2)
      with (messages s
            ++ [AIMessage ("Perfect! I've created your booking. Reference: " ++ ref)])%list
      by reflexivity.
    rewrite last_item_app. cbn [content AIMessage]. rewrite Hphrase. reflexivity. }
  destruct (sms_error_message_parts s2) as (P0 & P1 & P2 & P3 & P4 & P5).
  exists {| final := apply_update s2 (handle_sms_error_node s2);
            world := sms_logged env s2 (booking_logged env s1 w);
            visited := [ Graph.router; Graph.handle_confirmation; Graph.create_booking;
                         Graph.send_sms; Graph.handle_sms_error ] |},
         (sms_error_message s2).
  split.
  - rewrite invoke_eq. unfold recursion_limit.
    run_node ltac:(rewrite step_router, Haw).
    run_node ltac:(rewrite step_handle_confirmation,
                     (handle_confirmation_node_proceed env s Hyes)).
    erewrite run_step; [ | discriminate | exact Hstep2 ].
    erewrite run_step; [ | discriminate | exact Hstep3 ].
    erewrite run_step; [ | discriminate | apply step_handle_sms_error ].
    apply run_END.
  - cbn [final world visited].
    split; [reflexivity |].
    split; [cbn; rewrite length_app; cbn; lia |].
    split; [cbn; rewrite length_app; cbn; lia |].
    split; [reflexivity |].
    split; [reflexivity |].
    split.
    { unfold handle_sms_error_node.
      cbn [apply_update fold_left apply_entry messages]. apply last_item_app. }
    repeat split; assumption.
Qed.

(** Witness of C5: the booking succeeds with BK-12345, the SMS fails. *)
Lemma notification_failure_keeps_booking_witness :
  let env := Fixtures.patched (Fixtures.no_fields "ok")
               (Fixtures.decision true None)
               (fun _ => Fixtures.booking_ok "BK-12345") false in
  let s := Fixtures.awaiting_reply "yes" in
  let w := empty_world in
  let ref := "BK-12345" in
  awaiting_confirmation s = true
  /\ ConfirmationResponse.user_wants_to_proceed (call_llm_confirmation env s) = true
  /\ call_create_booking env (length (booking_log w)) (booking_args s)
     = {| Apis.success := true; Apis.booking_ref := Some ref |}
  /\ truthy_str (Some ref) = true
  /\ contains "sent a confirmation SMS"
              ("Perfect! I've created your booking. Reference: " ++ ref) = false
  /\ (forall n a, Apis.sms_success (call_send_sms env n a) = false)
  /\ exists (r : Run) (text : string),
      invoke env s w = Ok r
      /\ visited r = [ Graph.router; Graph.handle_confirmation; Graph.create_booking;
                       Graph.send_sms; Graph.handle_sms_error ]
      /\ length (sms_log (world r)) = S (length (sms_log w))
      /\ length (booking_log (world r)) = S (length (booking_log w))
      /\ conversation_complete (final r) = true
      /\ State.booking_ref (final r) = Some ref
      /\ last_item (messages (final r)) = Some (AIMessage text)
      /\ startswith "Your booking is confirmed!" text = true
      /\ contains ref text = true
      /\ contains (fmt_str (restaurant_name s)) text = true
      /\ contains (fmt_str (State.date s)) text = true
      /\ contains (fmt_str (State.time s)) text = true
      /\ contains (fmt_int (State.party_size s)) text = true.
Proof.
  cbv zeta.
  split; [reflexivity |].
  split; [reflexivity |].
  split; [reflexivity |].
  split; [reflexivity |].
  split; [vm_compute; reflexivity |].
  split; [intros n a; reflexivity |].
  apply notification_failure_keeps_booking;
    try reflexivity; intros; reflexivity.
Defined.

(** C5 as the spec words it fails, twice over. The terminal message of
    the error handler does not hold the full booking details: John Doe
    booked with the phone 555-1234, and neither the name nor the phone
    is in the text. And the error handler need not run at all: when the
    reference handed out by the commit holds the words the router looks
    for, a failed SMS ends the run after [send_sms], with no terminal
    message and the conversation not completed. *)
Lemma sms_error_message_omits_customer :
  let s := Fixtures.awaiting_reply "yes" in
  let env := Fixtures.patched (Fixtures.no_fields "ok")
               (Fixtures.decision true None)
               (fun _ => Fixtures.booking_ok "BK-12345") false in
  let odd := Fixtures.patched (Fixtures.no_fields "ok")
               (Fixtures.decision true None)
               (fun _ => Fixtures.booking_ok "sent a confirmation SMS") false in
  (exists (r : Run) (text : string),
     invoke env s empty_world = Ok r
     /\ visited r = [ Graph.router; Graph.handle_confirmation; Graph.create_booking;
                      Graph.send_sms; Graph.handle_sms_error ]
     /\ last_item (messages (final r)) = Some (AIMessage text)
     /\ customer_name (final r) = Some "John Doe"
     /\ State.phone (final r) = Some "555-1234"
     /\ contains "John Doe" text = false
     /\ contains "555-1234" text = false)
  /\ (exists r : Run,
        invoke odd s empty_world = Ok r
        /\ map snd (booking_log (world r))
           = [Fixtures.booking_ok "sent a confirmation SMS"]
        /\ map snd (sms_log (world r)) = [{| Apis.sms_success := false |}]
        /\ visited r = [ Graph.router; Graph.handle_confirmation;
                         Graph.create_booking; Graph.send_sms ]
        /\ last_item (messages (final r))
           = Some (AIMessage
                     "Perfect! I've created your booking. Reference: sent a confirmation SMS")
        /\ conversation_complete (final r) = false).
Proof.
  cbv zeta. split.
  - eexists. eexists.
    split; [vm_compute; reflexivity |].
    split; [reflexivity |].
    split; [vm_compute; reflexivity |].
    repeat split; vm_compute; reflexivity.
  - eexists. split; [vm_compute; reflexivity | repeat split].
Qed.

(** ** Every run ends, and what every run preserves *)

Section Runs.
Variable env : Adapters.

(** The state and the log after a step are the node's update merged
    and the node's log. *)
Lemma step_state (n n' : Node) (s s' : BookingState) (w w' : World) :
  step env n s w = Ok (n', s', w') ->
  s' = apply_update s (fst (Graph.node_function env n s w))
  /\ w' = snd (Graph.node_function env n s w).
Proof.
  unfold step. destruct (Graph.node_function env n s w) as [u w0].
  cbn [fst snd]. destruct (next_node n _); [|discriminate].
  intros H. injection H as _ Hs Hw. auto.
Qed.

(** Induction along a run: what every step carries over holds at the
    end. *)
Lemma run_invariant (I : Node -> BookingState -> World -> Prop) :
  (forall n s w n' s' w',
      n <> Graph.END -> I n s w -> step env n s w = Ok (n', s', w') -> I n' s' w') ->
  forall fuel n s w seen r,
    I n s w -> run fuel env n s w seen = Ok r ->
    I Graph.END (final r) (world r).
Proof.
  intros Hstep. induction fuel as [|fuel IH]; intros n s w seen r Hi Hrun.
  - destruct n; try discriminate Hrun.
    rewrite run_END in Hrun. injection Hrun as <-. exact Hi.
  - destruct (Graph.step env n s w) as [[[n' s'] w']|e] eqn:Hs.
    + destruct n;
        try (rewrite (run_step env fuel _ n' s s' w w' seen) in Hrun
               by (try discriminate; exact Hs);
             eapply IH; [ | exact Hrun ];
             eapply Hstep; [ | exact Hi | exact Hs ]; discriminate).
      rewrite run_END in Hrun. injection Hrun as <-. exact Hi.
    + destruct n;
        try (rewrite (run_raise env fuel _ s w seen e) in Hrun
               by (try discriminate; exact Hs);
             discriminate Hrun).
Qed.

(** The same for a property that every node keeps. *)
Lemma run_preserves (P : BookingState -> World -> Prop) :
  (forall n s w,
      P s w ->
      P (apply_update s (fst (Graph.node_function env n s w)))
        (snd (Graph.node_function env n s w))) ->
  forall fuel n s w seen r,
    P s w -> run fuel env n s w seen = Ok r -> P (final r) (world r).
Proof.
  intros Hnode fuel n s w seen r Hp Hrun.
  apply (run_invariant (fun _ => P)) with (fuel := fuel) (n := n) (s := s)
                                          (w := w) (seen := seen); auto.
  intros n0 s0 w0 n' s' w' _ Hp0 Hs.
  destruct (step_state _ _ _ _ _ _ Hs) as [-> ->]. apply Hnode, Hp0.
Qed.

End Runs.

Section Totality.
Variable env : Adapters.

Lemma last_item_nonempty (A : Type) (xs : list A) :
  xs <> [] -> exists x, last_item xs = Some x.
Proof.
  intros Hne. destruct (exists_last Hne) as (front & x & ->).
  exists x. apply last_item_app.
Qed.

Lemma app_nonempty (A : Type) (xs : list A) (x : A) : (xs ++ [x])%list <> [].
Proof. destruct xs; discriminate. Qed.

(** A step from any node but [END] succeeds and moves down the graph. *)
Lemma step_total (n : Node) (s : BookingState) (w : World) :
  n <> Graph.END ->
  history_ready n s ->
  exists n' s' w',
    step env n s w = Ok (n', s', w')
    /\ rank n' < rank n
    /\ history_ready n' s'.
Proof.
  intros Hn Hready. destruct n; try congruence; clear Hn.
  - rewrite step_router. destruct (awaiting_confirmation s);
      do 3 eexists; (split; [reflexivity | split; [simpl; lia | discriminate]]).
  - rewrite step_collect_info. cbv zeta. destruct (all_filled _);
      do 3 eexists; (split; [reflexivity | split; [simpl; lia | discriminate]]).
  - rewrite step_confirm.
    do 3 eexists; (split; [reflexivity | split; [simpl; lia | discriminate]]).
  - rewrite step_handle_confirmation. cbv zeta. destruct (user_confirmed _);
      do 3 eexists; (split; [reflexivity | split; [simpl; lia | discriminate]]).
  - rewrite step_create_booking.
    destruct (Apis.success (next_booking_result env s w)) eqn:Hres.
    + rewrite (create_booking_node_success env s w Hres). cbv zeta. cbn [fst snd].
      destruct (truthy_str _);
        do 3 eexists; (split; [reflexivity | split; [simpl; lia |]]);
        [ | discriminate ].
      intros _. cbn [apply_update fold_left apply_entry messages].
      apply app_nonempty.
    + rewrite (create_booking_node_failure env s w Hres). cbn.
      do 3 eexists; (split; [reflexivity | split; [simpl; lia | discriminate]]).
  - rewrite step_send_sms.
    destruct (Apis.sms_success (next_sms_result env s w)) eqn:Hres.
    + rewrite (send_sms_node_success env s w Hres). cbv zeta. cbn [fst snd].
      unfold Graph.check_sms_success.
      cbn [apply_update fold_left apply_entry messages].
      rewrite last_item_app. cbn [content AIMessage].
      rewrite sms_sent_message_has_phrase.
      do 3 eexists; (split; [reflexivity | split; [simpl; lia | discriminate]]).
    + rewrite (send_sms_node_failure env s w Hres). cbv zeta.
      cbn [fst snd apply_update fold_left].
      destruct (last_item_nonempty _ (messages s) (Hready eq_refl)) as [m Hm].
      unfold Graph.check_sms_success. rewrite Hm.
      destruct (contains _ _);
        do 3 eexists; (split; [reflexivity | split; [simpl; lia | discriminate]]).
  - rewrite step_handle_booking_error.
    do 3 eexists; (split; [reflexivity | split; [simpl; lia | discriminate]]).
  - rewrite step_handle_sms_error.
    do 3 eexists; (split; [reflexivity | split; [simpl; lia | discriminate]]).
Qed.

(** With fuel for the nodes that remain, the run returns. *)
Lemma run_total (fuel : nat) :
  forall n s w seen,
    rank n <= fuel -> history_ready n s ->
    exists r, run fuel env n s w seen = Ok r.
Proof.
  induction fuel as [|fuel IH]; intros n s w seen Hrank Hready.
  - destruct n; simpl in Hrank; try lia.
    eexists. apply run_END.
  - destruct n; try (eexists; apply run_END);
      match goal with
      | |- context [run _ _ ?n _ _ _] =>
          destruct (step_total n s w) as (n' & s' & w' & Hs & Hlt & Hr');
          [ discriminate | exact Hready | ];
          rewrite (run_step env fuel n n' s s' w w' seen) by (try discriminate; exact Hs);
          apply IH; [ simpl in Hrank, Hlt; lia | exact Hr' ]
      end.
Qed.

(** [invoke] returns on every state and under every behaviour of the
    adapters. *)
Lemma invoke_total (s : BookingState) (w : World) :
  exists r, invoke env s w = Ok r.
Proof.
  rewrite invoke_eq.
  apply run_total; [ simpl; unfold recursion_limit; lia | discriminate ].
Qed.

End Totality.

(** ** What the nodes keep *)

Section Kept.
Variable env : Adapters.

(** Split on the node, and on the outcome of the call it makes. *)
Ltac by_node n s w :=
  destruct n; cbn [Graph.node_function fst snd];
  [ (* router *) idtac
  | (* collect_info *) idtac
  | (* confirm *) idtac
  | (* handle_confirmation *)
    unfold handle_confirmation_node;
    destruct (ConfirmationResponse.requested_changes (call_llm_confirmation env s))
      as [[|? ?]|];
    destruct (ConfirmationResponse.user_wants_to_proceed (call_llm_confirmation env s))
  | (* create_booking *)
    destruct (Apis.success (next_booking_result env s w)) eqn:Hcall;
    [ rewrite (create_booking_node_success env s w Hcall)
    | rewrite (create_booking_node_failure env s w Hcall) ]
  | (* send_sms *)
    destruct (Apis.sms_success (next_sms_result env s w)) eqn:Hcall;
    [ rewrite (send_sms_node_success env s w Hcall)
    | rewrite (send_sms_node_failure env s w Hcall) ]
  | (* handle_booking_error *)
    destruct (Apis.success (next_booking_result env s w)) eqn:Hcall;
    [ rewrite (handle_booking_error_node_success env s w Hcall)
    | rewrite (handle_booking_error_node_failure env s w Hcall) ]
  | (* handle_sms_error *) idtac
  | (* END *) idtac ];
  cbn [fst snd].

(** No node writes [False] to [conversation_complete]. *)
Lemma node_keeps_complete (n : Node) (s : BookingState) (w : World) :
  conversation_complete s = true ->
  conversation_complete
    (apply_update s (fst (Graph.node_function env n s w))) = true.
Proof.
  intros Hc. by_node n s w; try (cbn; assumption || reflexivity).
  destruct (collect_info_merge env s) as (_ & _ & _ & _ & _ & _ & _ & Hcc & _).
  cbv zeta in Hcc. rewrite Hcc. exact Hc.
Qed.

(** Only the collection node writes to the six booking fields. *)
Lemma node_keeps_six (n : Node) (s : BookingState) (w : World) :
  n <> Graph.collect_info ->
  same_six s (apply_update s (fst (Graph.node_function env n s w))).
Proof.
  intros Hn. by_node n s w; try congruence; cbn; repeat split.
Qed.

Lemma committed_after_booking (s : BookingState) (w : World) (ref : string) :
  committed w ref -> committed (booking_logged env s w) ref.
Proof.
  intros [a Ha]. exists a. cbn. apply in_or_app. left. exact Ha.
Qed.

Lemma committed_by_call (s : BookingState) (w : World) (ref : string) :
  Apis.success (next_booking_result env s w) = true ->
  Apis.booking_ref (next_booking_result env s w) = Some ref ->
  committed (booking_logged env s w) ref.
Proof.
  intros Hs Hr. exists (booking_args s). cbn. apply in_or_app. right. left.
  destruct (next_booking_result env s w) as [ok r]. cbn in Hs, Hr.
  subst. reflexivity.
Qed.

(** Every node keeps [booking_ref] backed by the log. *)
Lemma node_keeps_ref_committed (n : Node) (s : BookingState) (w : World) :
  ref_is_committed s w ->
  ref_is_committed (apply_update s (fst (Graph.node_function env n s w)))
                   (snd (Graph.node_function env n s w)).
Proof.
  intros Inv. unfold ref_is_committed in *.
  by_node n s w;
    try match goal with
        | |- context [collect_info_node] =>
            destruct (collect_info_merge env s) as (_ & _ & _ & _ & _ & _ & Hb & _);
            cbv zeta in Hb; rewrite Hb; exact Inv
        end;
    cbn [apply_update fold_left apply_entry State.booking_ref];
    try exact Inv.
  - (* create_booking, success *)
    intros ref Hr. apply committed_by_call; assumption.
  - (* create_booking, failure *)
    intros ref Hr. discriminate Hr.
  - (* handle_booking_error, success *)
    intros ref Hr. apply committed_by_call; assumption.
  - (* handle_booking_error, failure *)
    intros ref Hr. apply committed_after_booking. apply Inv, Hr.
Qed.

(** What a node can leave in [booking_ref]: what was there, [None]
    after a failed call, or the reference of the successful call it
    has just made. *)
Lemma node_writes_ref (n : Node) (s : BookingState) (w : World) :
  let s' := apply_update s (fst (Graph.node_function env n s w)) in
  State.booking_ref s' = State.booking_ref s
  \/ State.booking_ref s' = None
  \/ (Apis.success (next_booking_result env s w) = true
      /\ State.booking_ref s' = Apis.booking_ref (next_booking_result env s w)).
Proof.
  cbv zeta.
  by_node n s w;
    try match goal with
        | |- context [collect_info_node] =>
            destruct (collect_info_merge env s) as (_ & _ & _ & _ & _ & _ & Hb & _);
            left; exact Hb
        end;
    cbn [apply_update fold_left apply_entry State.booking_ref];
    first [ left; reflexivity
          | right; left; reflexivity
          | right; right; split; reflexivity ].
Qed.

End Kept.

(** ** One invoke *)

Section Invoke.
Variable env : Adapters.

Lemma run_keeps_complete (fuel : nat) (n : Node) (s : BookingState) (w : World)
    (seen : list Node) (r : Run) :
  run fuel env n s w seen = Ok r ->
  conversation_complete s = true ->
  conversation_complete (final r) = true.
Proof.
  intros Hrun Hc.
  exact (run_preserves env (fun s _ => conversation_complete s = true)
           (fun n s0 w0 => node_keeps_complete env n s0 w0)
           fuel n s w seen r Hc Hrun).
Qed.

Lemma invoke_keeps_complete (s : BookingState) (w : World) (r : Run) :
  invoke env s w = Ok r ->
  conversation_complete s = true ->
  conversation_complete (final r) = true.
Proof. rewrite invoke_eq. apply run_keeps_complete. Qed.

Lemma run_keeps_ref_committed (fuel : nat) (n : Node) (s : BookingState) (w : World)
    (seen : list Node) (r : Run) :
  run fuel env n s w seen = Ok r ->
  ref_is_committed s w ->
  ref_is_committed (final r) (world r).
Proof.
  intros Hrun Hc.
  exact (run_preserves env ref_is_committed
           (fun n s0 w0 => node_keeps_ref_committed env n s0 w0)
           fuel n s w seen r Hc Hrun).
Qed.

Lemma invoke_keeps_ref_committed (s : BookingState) (w : World) (r : Run) :
  invoke env s w = Ok r ->
  ref_is_committed s w ->
  ref_is_committed (final r) (world r).
Proof. rewrite invoke_eq. apply run_keeps_ref_committed. Qed.

Lemma same_six_trans (s s1 s2 : BookingState) :
  same_six s s1 -> same_six s1 s2 -> same_six s s2.
Proof.
  unfold same_six. intros (A1 & A2 & A3 & A4 & A5 & A6) (B1 & B2 & B3 & B4 & B5 & B6).
  repeat split; congruence.
Qed.

Lemma lookup_target (label : string) (path_map : list (string * Node)) (n : Node) :
  Graph.lookup label path_map = Ok n -> In n (map snd path_map).
Proof.
  induction path_map as [|[k t] rest IH]; simpl.
  - discriminate.
  - destruct (String.eqb k label).
    + intros H. injection H as ->. left. reflexivity.
    + intros H. right. apply IH, H.
Qed.

(** The edges out of the confirmation path stay on it. *)
Lemma next_on_confirmation_path (n n' : Node) (s : BookingState) :
  on_confirmation_path n = true ->
  next_node n s = Ok n' ->
  on_confirmation_path n' = true.
Proof.
  intros Hn. unfold next_node.
  destruct n; try discriminate Hn; cbn [Graph.build_graph];
    try (intros H; injection H as <-; reflexivity);
    match goal with
    | |- context [Graph.check_sms_success s] =>
        destruct (Graph.check_sms_success s); [|discriminate]
    | _ => idtac
    end;
    intros H; apply lookup_target in H; simpl in H;
    repeat (destruct H as [<- | H]; [reflexivity |]); contradiction.
Qed.

Lemma step_next (n n' : Node) (s s' : BookingState) (w w' : World) :
  step env n s w = Ok (n', s', w') -> next_node n s' = Ok n'.
Proof.
  unfold step. destruct (Graph.node_function env n s w) as [u w0].
  destruct (next_node n (apply_update s u)) eqn:Hn; [|discriminate].
  intros H. injection H as <- <- _. exact Hn.
Qed.

(** On the confirmation path the six booking fields are not written. *)
Lemma run_on_confirmation_path_keeps_six (fuel : nat) (n : Node)
    (s : BookingState) (w : World) (seen : list Node) (r : Run) :
  on_confirmation_path n = true ->
  run fuel env n s w seen = Ok r ->
  same_six s (final r).
Proof.
  intros Hn Hrun.
  refine (proj2 (run_invariant env
                   (fun n s' _ => on_confirmation_path n = true /\ same_six s s')
                   _ fuel n s w seen r _ Hrun)).
  - intros n0 s0 w0 n' s' w' _ [Hp Hsix] Hs. split.
    + eapply next_on_confirmation_path; [exact Hp | eapply step_next; exact Hs].
    + destruct (step_state env _ _ _ _ _ _ Hs) as [-> _].
      eapply same_six_trans; [exact Hsix |].
      apply node_keeps_six. destruct n0; discriminate.
  - split; [exact Hn | repeat split].
Qed.

Lemma confirmation_path_keeps_six (s : BookingState) (w : World) (r : Run) :
  awaiting_confirmation s = true ->
  invoke env s w = Ok r ->
  same_six s (final r).
Proof.
  intros Haw. rewrite invoke_eq. unfold recursion_limit.
  rewrite (run_step env _ Graph.router Graph.handle_confirmation s s w w)
    by (try discriminate; rewrite step_router, Haw; reflexivity).
  apply run_on_confirmation_path_keeps_six. reflexivity.
Qed.

(** When the session is not waiting for a confirmation, the run is the
    collection node, followed by the summary when the six fields are
    filled. *)
Lemma invoke_collects (s : BookingState) (w : World) :
  awaiting_confirmation s = false ->
  let s1 := apply_update s (collect_info_node env s) in
  invoke env s w
    = Ok (if all_filled s1
          then {| final := apply_update s1 (confirm_node s1); world := w;
                  visited := [Graph.router; Graph.collect_info; Graph.confirm] |}
          else {| final := s1; world := w;
                  visited := [Graph.router; Graph.collect_info] |}).
Proof.
  intros Haw s1. rewrite invoke_eq. unfold recursion_limit.
  rewrite (run_step env _ Graph.router Graph.collect_info s s w w)
    by (try discriminate; rewrite step_router, Haw; reflexivity).
  destruct (all_filled s1) eqn:Hall.
  - rewrite (run_step env _ Graph.collect_info Graph.confirm s s1 w w)
      by (try discriminate; rewrite step_collect_info; cbv zeta; fold s1;
          rewrite Hall; reflexivity).
    rewrite (run_step env _ Graph.confirm Graph.END s1
               (apply_update s1 (confirm_node s1)) w w)
      by (try discriminate; apply step_confirm).
    apply run_END.
  - rewrite (run_step env _ Graph.collect_info Graph.END s s1 w w)
      by (try discriminate; rewrite step_collect_info; cbv zeta; fold s1;
          rewrite Hall; reflexivity).
    apply run_END.
Qed.

End Invoke.

(** ** The terminal flag *)

(** C2, as the code has it. The engine never reads
    [conversation_complete]. On a state where it is true, a further
    turn runs like any other: it returns, and the flag stays true, but
    the state the router selects does run. When the session is not
    waiting for a confirmation, the collection node merges the new
    extraction result into the six fields (a truthy new value replaces
    the stored one), and leaves [booking_ref] and the log as they are.
    When it is waiting for one, the confirmation path runs: it leaves
    the six fields as they are. *)
Theorem completed_session_still_runs
    (env : Adapters) (text : string) (s : BookingState) (w : World) :
  conversation_complete s = true ->
  exists r : Run,
    turn env text s w = Ok r
    /\ conversation_complete (final r) = true
    /\ (awaiting_confirmation s = false ->
        let response := call_llm_booking_info env (append_user_message s text) in
        restaurant_name (final r)
          = merged_str (restaurant_name s) (BookingInfo.restaurant_name response)
        /\ State.date (final r)
           = merged_str (State.date s) (BookingInfo.date response)
        /\ State.time (final r)
           = merged_str (State.time s) (BookingInfo.time response)
        /\ State.party_size (final r)
           = merged_int (State.party_size s) (BookingInfo.party_size response)
        /\ customer_name (final r)
           = merged_str (customer_name s) (BookingInfo.customer_name response)
        /\ State.phone (final r)
           = merged_str (State.phone s) (BookingInfo.phone response)
        /\ State.booking_ref (final r) = State.booking_ref s
        /\ world r = w)
    /\ (awaiting_confirmation s = true -> same_six s (final r)).
Proof.
  intros Hc.
  destruct (invoke_total env (append_user_message s text) w) as [r Hr].
  exists r. split; [rewrite turn_eq; exact Hr |].
  split; [exact (invoke_keeps_complete env _ w r Hr Hc) |].
  split.
  - intros Haw.
    rewrite (invoke_collects env (append_user_message s text) w Haw) in Hr.
    destruct (collect_info_merge env (append_user_message s text))
      as (Hr1 & Hd & Ht & Hp & Hn & Hph & Hb & _).
    cbv zeta in *.
    remember (apply_update (append_user_message s text)
                (collect_info_node env (append_user_message s text))) as s1.
    destruct (all_filled s1); injection Hr as <-; cbn [final world];
      (split; [exact Hr1 |]); (split; [exact Hd |]); (split; [exact Ht |]);
      (split; [exact Hp |]); (split; [exact Hn |]); (split; [exact Hph |]);
      (split; [exact Hb | reflexivity]).
  - intros Haw.
    exact (confirmation_path_keeps_six env (append_user_message s text) w r Haw Hr).
Qed.

(** Witness of C2: one more line typed into a session that has ended. *)
Lemma completed_session_still_runs_witness :
  let env := Fixtures.patched (Fixtures.no_fields "Anything else?")
               (Fixtures.decision true None)
               (fun _ => Fixtures.booking_ok "BK-99999") true in
  let s := Fixtures.finished_session in
  conversation_complete s = true
  /\ exists r : Run,
      turn env "thanks" s empty_world = Ok r
      /\ conversation_complete (final r) = true
      /\ (awaiting_confirmation s = false ->
          let response := call_llm_booking_info env (append_user_message s "thanks") in
          restaurant_name (final r)
            = merged_str (restaurant_name s) (BookingInfo.restaurant_name response)
          /\ State.date (final r)
             = merged_str (State.date s) (BookingInfo.date response)
          /\ State.time (final r)
             = merged_str (State.time s) (BookingInfo.time response)
          /\ State.party_size (final r)
             = merged_int (State.party_size s) (BookingInfo.party_size response)
          /\ customer_name (final r)
             = merged_str (customer_name s) (BookingInfo.customer_name response)
          /\ State.phone (final r)
             = merged_str (State.phone s) (BookingInfo.phone response)
          /\ State.booking_ref (final r) = State.booking_ref s
          /\ world r = empty_world)
      /\ (awaiting_confirmation s = true -> same_six s (final r)).
Proof.
  split; [vm_compute; reflexivity |].
  apply completed_session_still_runs. vm_compute. reflexivity.
Defined.

(** C2 as the spec words it fails: in a session that has ended with
    [conversation_complete = True], the next user line still goes
    through the collection node, which overwrites the restaurant; and
    one more confirmed turn books again and replaces [booking_ref]. *)
Lemma completed_session_is_rewritten :
  let s := Fixtures.finished_session in
  let env := Fixtures.patched
               (Fixtures.only_restaurant (Some "Luigi's") "Changed to Luigi's.")
               (Fixtures.decision true None)
               (fun _ => Fixtures.booking_ok "BK-99999") true in
  conversation_complete s = true
  /\ restaurant_name s = Some "Mario's Italian"
  /\ State.booking_ref s = Some "BK-12345"
  /\ (exists r : Run,
        turn env "make it Luigi's" s empty_world = Ok r
        /\ restaurant_name (final r) = Some "Luigi's")
  /\ (exists (s' : BookingState) (w' : World),
        session [(env, "make it Luigi's"); (env, "yes")] s empty_world = Ok (s', w')
        /\ State.booking_ref s' = Some "BK-99999").
Proof.
  cbv zeta.
  split; [vm_compute; reflexivity |].
  split; [vm_compute; reflexivity |].
  split; [vm_compute; reflexivity |].
  split.
  - eexists. split; vm_compute; reflexivity.
  - eexists. eexists. split; vm_compute; reflexivity.
Qed.

(** ** Where booking_ref comes from *)

Lemma session_keeps_ref_committed (turns : list (Adapters * string)) :
  forall s0 w0 s w,
    ref_is_committed s0 w0 ->
    session turns s0 w0 = Ok (s, w) ->
    ref_is_committed s w.
Proof.
  induction turns as [|[env text] rest IH]; intros s0 w0 s w Inv Hs.
  - simpl in Hs. injection Hs as <- <-. exact Inv.
  - cbn [session] in Hs.
    destruct (turn env text s0 w0) as [r|e] eqn:Ht; [|discriminate].
    rewrite turn_eq in Ht.
    apply (IH (final r) (world r) s w); [|exact Hs].
    apply (invoke_keeps_ref_committed env (append_user_message s0 text) w0 r Ht).
    exact Inv.
Qed.

(** Every session runs to its end, whatever the adapters answer. *)
Lemma session_total (turns : list (Adapters * string)) :
  forall s0 w0, exists s w, session turns s0 w0 = Ok (s, w).
Proof.
  induction turns as [|[env text] rest IH]; intros s0 w0.
  - exists s0, w0. reflexivity.
  - cbn [session]. rewrite turn_eq.
    destruct (invoke_total env (append_user_message s0 text) w0) as [r Hr].
    rewrite Hr. apply IH.
Qed.

(** C9. In every state that a session reaches from the initial state,
    under any behaviour of the adapters, [booking_ref] holds a
    reference only if the log has a [create_booking] call that returned
    success with that reference. And no node writes anything else to
    [booking_ref]: after a node, the field is what it was, or [None],
    or the reference returned by the successful call that the node has
    just made. *)
Theorem booking_ref_only_from_commit
    (turns : list (Adapters * string)) (s : BookingState) (w : World) :
  session turns initial_state empty_world = Ok (s, w) ->
  (forall ref, State.booking_ref s = Some ref ->
     exists a, In (a, {| Apis.success := true; Apis.booking_ref := Some ref |})
                  (booking_log w))
  /\ forall (env : Adapters) (n : Node) (s0 : BookingState) (w0 : World),
       let s' := apply_update s0 (fst (Graph.node_function env n s0 w0)) in
       State.booking_ref s' = State.booking_ref s0
       \/ State.booking_ref s' = None
       \/ (Apis.success (next_booking_result env s0 w0) = true
           /\ State.booking_ref s' = Apis.booking_ref (next_booking_result env s0 w0)).
Proof.
  intros Hs. split.
  - apply (session_keeps_ref_committed turns initial_state empty_world s w);
      [|exact Hs].
    intros ref Hr. discriminate Hr.
  - intros env n s0 w0. apply node_writes_ref.
Qed.

(** Witness of C9: a session of two turns that ends with a booking. *)
Lemma booking_ref_only_from_commit_witness :
  exists (s : BookingState) (w : World),
    session Fixtures.two_turns initial_state empty_world = Ok (s, w)
    /\ State.booking_ref s = Some "BK-12345"
    /\ conversation_complete s = true
    /\ exists a, In (a, {| Apis.success := true; Apis.booking_ref := Some "BK-12345" |})
                    (booking_log w).
Proof.
  eexists. eexists.
  split; [vm_compute; reflexivity |].
  split; [reflexivity |].
  split; [reflexivity |].
  refine (proj1 (booking_ref_only_from_commit Fixtures.two_turns _ _ _) _ _).
  - vm_compute. reflexivity.
  - reflexivity.
Defined.

(** * Further properties of the nodes, the graph and the callers *)

(** ** What the fixed texts carry *)

(** The summary shows the six fields. *)
Lemma confirmation_message_parts (s : BookingState) :
  contains (fmt_str (restaurant_name s)) (confirmation_message s) = true
  /\ contains (fmt_str (State.date s)) (confirmation_message s) = true
  /\ contains (fmt_str (State.time s)) (confirmation_message s) = true
  /\ contains (fmt_int (State.party_size s)) (confirmation_message s) = true
  /\ contains (fmt_str (customer_name s)) (confirmation_message s) = true
  /\ contains (fmt_str (State.phone s)) (confirmation_message s) = true.
Proof. unfold confirmation_message. repeat split; find_part. Qed.

Lemma booking_error_message_parts (s : BookingState) :
  contains (fmt_str (restaurant_name s)) (booking_error_message s) = true
  /\ contains (fmt_str (State.date s)) (booking_error_message s) = true
  /\ contains (fmt_str (State.time s)) (booking_error_message s) = true
  /\ contains (fmt_int (State.party_size s)) (booking_error_message s) = true
  /\ contains (fmt_str (customer_name s)) (booking_error_message s) = true
  /\ contains (fmt_str (State.phone s)) (booking_error_message s) = true.
Proof. unfold booking_error_message. repeat split; find_part. Qed.

Lemma sms_message_parts (s : BookingState) :
  contains (fmt_str (restaurant_name s)) (sms_message s) = true
  /\ contains (fmt_str (State.date s)) (sms_message s) = true
  /\ contains (fmt_str (State.time s)) (sms_message s) = true
  /\ contains (fmt_int (State.party_size s)) (sms_message s) = true
  /\ contains (fmt_str (State.booking_ref s)) (sms_message s) = true.
Proof. unfold sms_message. repeat split; find_part. Qed.

(** X1. The confirmation node shows the user every one of the six
    stored fields: it appends one assistant message, the summary, which
    holds the restaurant, date, time, party size, name and phone as
    they are stored; it sets [all_info_collected] and
    [awaiting_confirmation], and it writes none of the six fields, nor
    [booking_ref], nor the two other flags. *)
Theorem confirm_node_shows_what_is_stored (s : BookingState) :
  let s' := apply_update s (confirm_node s) in
  exists text : string,
    messages s' = (messages s ++ [AIMessage text])%list
    /\ contains (fmt_str (restaurant_name s)) text = true
    /\ contains (fmt_str (State.date s)) text = true
    /\ contains (fmt_str (State.time s)) text = true
    /\ contains (fmt_int (State.party_size s)) text = true
    /\ contains (fmt_str (customer_name s)) text = true
    /\ contains (fmt_str (State.phone s)) text = true
    /\ all_info_collected s' = true
    /\ awaiting_confirmation s' = true
    /\ same_six s s'
    /\ State.booking_ref s' = State.booking_ref s
    /\ user_confirmed s' = user_confirmed s
    /\ conversation_complete s' = conversation_complete s.
Proof.
  cbv zeta. exists (confirmation_message s).
  destruct (confirmation_message_parts s) as (P1 & P2 & P3 & P4 & P5 & P6).
  split; [reflexivity |].
  repeat (split; [assumption |]).
  repeat split.
Qed.

(** ** One invoke, node by node *)

Section Outcome.
Variable env : Adapters.

Lemma last_item_some_nonempty (A : Type) (xs : list A) (x : A) :
  last_item xs = Some x -> xs <> [].
Proof. intros H ->. discriminate H. Qed.

(** A state in which [create_booking_node] has left a truthy reference
    has a history. *)
Lemma booked_state_has_history (s : BookingState) (w : World) :
  truthy_str (State.booking_ref (apply_update s (fst (create_booking_node env s w))))
    = true ->
  messages (apply_update s (fst (create_booking_node env s w))) <> [].
Proof.
  destruct (Apis.success (next_booking_result env s w)) eqn:Hres.
  - rewrite (create_booking_node_success env s w Hres). intros _.
    cbn [fst apply_update fold_left apply_entry messages]. apply app_nonempty.
  - rewrite (create_booking_node_failure env s w Hres). cbn. discriminate.
Qed.

(** The notification node keeps a history that is not empty. *)
Lemma send_sms_node_keeps_history (s : BookingState) (w : World) :
  messages s <> [] ->
  messages (apply_update s (fst (send_sms_node env s w))) <> [].
Proof.
  intros Hne.
  destruct (Apis.sms_success (next_sms_result env s w)) eqn:Hres.
  - rewrite (send_sms_node_success env s w Hres).
    cbn [fst apply_update fold_left apply_entry messages]. apply app_nonempty.
  - rewrite (send_sms_node_failure env s w Hres). exact Hne.
Qed.

(** The step out of the notification node, when the history is not
    empty. *)
Lemma step_send_sms_ready (s : BookingState) (w : World) :
  messages s <> [] ->
  step env Graph.send_sms s w
    = let s' := apply_update s (fst (send_sms_node env s w)) in
      Ok (if last_has_phrase s' then Graph.END else Graph.handle_sms_error,
          s', snd (send_sms_node env s w)).
Proof.
  intros Hne. rewrite step_send_sms. cbv zeta.
  destruct (last_item_nonempty _ _ (send_sms_node_keeps_history s w Hne)) as [m Hm].
  unfold Graph.check_sms_success, last_has_phrase. rewrite Hm.
  destruct (contains _ _); reflexivity.
Qed.

Lemma invoke_confirms (s : BookingState) (w : World) :
  awaiting_confirmation s = true ->
  invoke env s w = Ok (confirmation_outcome env s w).
Proof.
  intros Haw. rewrite invoke_eq. unfold recursion_limit, confirmation_outcome.
  rewrite (run_step env _ Graph.router Graph.handle_confirmation s s w w)
    by (try discriminate; rewrite step_router, Haw; reflexivity).
  set (s1 := apply_update s (handle_confirmation_node env s)).
  destruct (user_confirmed s1) eqn:Hu.
  - rewrite (run_step env _ Graph.handle_confirmation Graph.create_booking s s1 w w)
      by (try discriminate; rewrite step_handle_confirmation; cbv zeta; fold s1;
          rewrite Hu; reflexivity).
    set (s2 := apply_update s1 (fst (create_booking_node env s1 w))).
    set (w1 := snd (create_booking_node env s1 w)).
    destruct (truthy_str (State.booking_ref s2)) eqn:Hb.
    + rewrite (run_step env _ Graph.create_booking Graph.send_sms s1 s2 w w1)
        by (try discriminate; rewrite step_create_booking; cbv zeta; fold s2 w1;
            rewrite Hb; reflexivity).
      assert (Hne : messages s2 <> []) by (apply booked_state_has_history; exact Hb).
      set (s3 := apply_update s2 (fst (send_sms_node env s2 w1))).
      set (w2 := snd (send_sms_node env s2 w1)).
      destruct (last_has_phrase s3) eqn:Hp.
      * rewrite (run_step env _ Graph.send_sms Graph.END s2 s3 w1 w2)
          by (try discriminate; rewrite (step_send_sms_ready s2 w1 Hne);
              cbv zeta; fold s3 w2; rewrite Hp; reflexivity).
        apply run_END.
      * rewrite (run_step env _ Graph.send_sms Graph.handle_sms_error s2 s3 w1 w2)
          by (try discriminate; rewrite (step_send_sms_ready s2 w1 Hne);
              cbv zeta; fold s3 w2; rewrite Hp; reflexivity).
        rewrite (run_step env _ Graph.handle_sms_error Graph.END s3
                   (apply_update s3 (handle_sms_error_node s3)) w2 w2)
          by (try discriminate; apply step_handle_sms_error).
        apply run_END.
    + rewrite (run_step env _ Graph.create_booking Graph.handle_booking_error
                 s1 s2 w w1)
        by (try discriminate; rewrite step_create_booking; cbv zeta; fold s2 w1;
            rewrite Hb; reflexivity).
      rewrite (run_step env _ Graph.handle_booking_error Graph.END s2
                 (apply_update s2 (fst (handle_booking_error_node env s2 w1)))
                 w1 (snd (handle_booking_error_node env s2 w1)))
        by (try discriminate; apply step_handle_booking_error).
      apply run_END.
  - rewrite (run_step env _ Graph.handle_confirmation Graph.END s s1 w w)
      by (try discriminate; rewrite step_handle_confirmation; cbv zeta; fold s1;
          rewrite Hu; reflexivity).
    apply run_END.
Qed.

(** [invoke] never raises, and its result is the outcome written out. *)
Lemma invoke_is_outcome (s : BookingState) (w : World) :
  invoke env s w = Ok (invoke_outcome env s w).
Proof.
  unfold invoke_outcome. destruct (awaiting_confirmation s) eqn:Haw.
  - apply invoke_confirms, Haw.
  - apply (invoke_collects env s w Haw).
Qed.

End Outcome.

(** ** What one invoke can do *)

Section Bounds.
Variable env : Adapters.

(** Each commit node makes one call, whatever its result. *)
Lemma create_booking_node_log (s : BookingState) (w : World) :
  snd (create_booking_node env s w) = booking_logged env s w.
Proof.
  destruct (Apis.success (next_booking_result env s w)) eqn:H.
  - rewrite (create_booking_node_success env s w H). reflexivity.
  - rewrite (create_booking_node_failure env s w H). reflexivity.
Qed.

Lemma handle_booking_error_node_log (s : BookingState) (w : World) :
  snd (handle_booking_error_node env s w) = booking_logged env s w.
Proof.
  destruct (Apis.success (next_booking_result env s w)) eqn:H.
  - rewrite (handle_booking_error_node_success env s w H). reflexivity.
  - rewrite (handle_booking_error_node_failure env s w H). reflexivity.
Qed.

Lemma send_sms_node_log (s : BookingState) (w : World) :
  snd (send_sms_node env s w) = sms_logged env s w.
Proof.
  destruct (Apis.sms_success (next_sms_result env s w)) eqn:H.
  - rewrite (send_sms_node_success env s w H). reflexivity.
  - rewrite (send_sms_node_failure env s w H). reflexivity.
Qed.


End Bounds.

(** ** Calls to the commit services *)

Section Calls.
Variable env : Adapters.

Lemma booking_args_same (s s' : BookingState) :
  same_six s s' -> booking_args s' = booking_args s.
Proof.
  intros (H1 & H2 & H3 & H4 & H5 & H6). unfold booking_args.
  rewrite H1, H2, H3, H4, H5, H6. reflexivity.
Qed.

Lemma handle_confirmation_keeps_six (s : BookingState) :
  same_six s (apply_update s (handle_confirmation_node env s)).
Proof.
  apply (node_keeps_six env Graph.handle_confirmation s empty_world). discriminate.
Qed.

Lemma create_booking_keeps_six (s : BookingState) (w : World) :
  same_six s (apply_update s (fst (create_booking_node env s w))).
Proof. apply (node_keeps_six env Graph.create_booking s w). discriminate. Qed.

Lemma send_sms_keeps_six (s : BookingState) (w : World) :
  same_six s (apply_update s (fst (send_sms_node env s w))).
Proof. apply (node_keeps_six env Graph.send_sms s w). discriminate. Qed.

Lemma send_sms_keeps_ref (s : BookingState) (w : World) :
  State.booking_ref (apply_update s (fst (send_sms_node env s w)))
    = State.booking_ref s.
Proof.
  destruct (Apis.sms_success (next_sms_result env s w)) eqn:H.
  - rewrite (send_sms_node_success env s w H). reflexivity.
  - rewrite (send_sms_node_failure env s w H). reflexivity.
Qed.

(** A truthy reference after [create_booking_node] is the reference of
    a call that has just succeeded. *)
Lemma truthy_ref_after_booking (s : BookingState) (w : World) :
  truthy_str (State.booking_ref (apply_update s (fst (create_booking_node env s w))))
    = true ->
  Apis.success (next_booking_result env s w) = true
  /\ State.booking_ref (apply_update s (fst (create_booking_node env s w)))
     = Apis.booking_ref (next_booking_result env s w).
Proof.
  destruct (Apis.success (next_booking_result env s w)) eqn:Hres.
  - rewrite (create_booking_node_success env s w Hres). intros _.
    split; reflexivity.
  - rewrite (create_booking_node_failure env s w Hres). cbn. discriminate.
Qed.

Lemma app_one_more (A : Type) (xs : list A) (x : A) : (xs ++ [x])%list <> xs.
Proof.
  intros H. apply (f_equal (@length A)) in H.
  rewrite length_app in H. cbn in H. lia.
Qed.

(** X3. No SMS without a booking. If an invoke has called [send_sms],
    then the state was waiting for a confirmation, and in the same
    invoke [create_booking] was called exactly once, with the six
    fields of the state, and returned success with a truthy reference;
    that reference is in [booking_ref] at the end; and the one SMS went
    to the phone of the state with a text that holds the reference. *)
Theorem sms_only_after_booking (s : BookingState) (w : World) (r : Run) :
  invoke env s w = Ok r ->
  sms_log (world r) <> sms_log w ->
  exists (b : Apis.BookingResult) (text : Apis.SmsArgs) (sent : Apis.SmsResult),
    awaiting_confirmation s = true
    /\ booking_log (world r) = (booking_log w ++ [(booking_args s, b)])%list
    /\ Apis.success b = true
    /\ truthy_str (Apis.booking_ref b) = true
    /\ State.booking_ref (final r) = Apis.booking_ref b
    /\ sms_log (world r) = (sms_log w ++ [(text, sent)])%list
    /\ Apis.sms_phone text = State.phone s
    /\ contains (fmt_str (Apis.booking_ref b)) (Apis.sms_message text) = true.
Proof.
  intros Hrun Hsms. rewrite invoke_is_outcome in Hrun. injection Hrun as <-.
  unfold invoke_outcome, confirmation_outcome, collect_outcome in *.
  destruct (awaiting_confirmation s) eqn:Haw.
  2:{ destruct (all_filled _); exfalso; apply Hsms; reflexivity. }
  pose proof (handle_confirmation_keeps_six s) as Hsix1.
  set (s1 := apply_update s (handle_confirmation_node env s)) in *.
  destruct (user_confirmed s1).
  2:{ exfalso; apply Hsms; reflexivity. }
  pose proof (create_booking_keeps_six s1 w) as Hsix2.
  pose proof (truthy_ref_after_booking s1 w) as Href.
  rewrite create_booking_node_log in *.
  set (s2 := apply_update s1 (fst (create_booking_node env s1 w))) in *.
  destruct (truthy_str (State.booking_ref s2)) eqn:Hb.
  2:{ rewrite handle_booking_error_node_log in Hsms.
      exfalso; apply Hsms; reflexivity. }
  destruct (Href eq_refl) as [Hok Hr2]. clear Href.
  pose proof (send_sms_keeps_ref s2 (booking_logged env s1 w)) as Hr3.
  rewrite send_sms_node_log in *.
  set (s3 := apply_update s2 (fst (send_sms_node env s2 (booking_logged env s1 w)))) in *.
  exists (next_booking_result env s1 w),
         {| Apis.sms_phone := State.phone s2; Apis.sms_message := sms_message s2 |},
         (next_sms_result env s2 (booking_logged env s1 w)).
  split; [reflexivity |].
  split.
  { destruct (last_has_phrase s3); cbn;
      rewrite <- (booking_args_same s s1 Hsix1); reflexivity. }
  split; [exact Hok |].
  split; [rewrite <- Hr2; exact Hb |].
  split.
  { destruct (last_has_phrase s3); cbn [final];
      [ | change (State.booking_ref (apply_update s3 (handle_sms_error_node s3)))
            with (State.booking_ref s3) ];
      rewrite Hr3, Hr2; reflexivity. }
  split; [destruct (last_has_phrase s3); reflexivity |].
  split.
  { cbn [Apis.sms_phone].
    destruct Hsix1 as (_ & _ & _ & _ & _ & H1).
    destruct Hsix2 as (_ & _ & _ & _ & _ & H2). rewrite H2, H1. reflexivity. }
  cbn [Apis.sms_message]. rewrite <- Hr2.
  apply (sms_message_parts s2).
Qed.

End Calls.

(** Witness of X3: the booking and the SMS of the mock services. *)
Lemma sms_only_after_booking_witness :
  let env := Fixtures.mock_services (Fixtures.no_fields "ok")
               (Fixtures.decision true None) in
  let s := Fixtures.awaiting_reply "yes" in
  exists r : Run,
    invoke env s empty_world = Ok r
    /\ sms_log (world r) <> sms_log empty_world
    /\ exists (b : Apis.BookingResult) (text : Apis.SmsArgs) (sent : Apis.SmsResult),
        awaiting_confirmation s = true
        /\ booking_log (world r)
           = (booking_log empty_world ++ [(booking_args s, b)])%list
        /\ Apis.success b = true
        /\ truthy_str (Apis.booking_ref b) = true
        /\ State.booking_ref (final r) = Apis.booking_ref b
        /\ sms_log (world r) = (sms_log empty_world ++ [(text, sent)])%list
        /\ Apis.sms_phone text = State.phone s
        /\ contains (fmt_str (Apis.booking_ref b)) (Apis.sms_message text) = true.
Proof.
  intros env s. exists (invoke_outcome env s empty_world).
  split; [apply invoke_is_outcome |].
  split; [vm_compute; discriminate |].
  apply (sms_only_after_booking env s empty_world);
    [apply invoke_is_outcome | vm_compute; discriminate].
Defined.

(** X4. A success without a reference counts as a failure. When the
    booking service answers success with [booking_ref] missing or
    empty, [create_booking_node] stores it and announces the booking,
    but [check_booking_success] tests the reference, not the success
    flag: the error handler runs and calls [create_booking] a second
    time with the same arguments. No SMS is sent. *)
Theorem success_without_reference_is_retried
    (env : Adapters) (s : BookingState) (w : World) :
  awaiting_confirmation s = true ->
  ConfirmationResponse.user_wants_to_proceed (call_llm_confirmation env s) = true ->
  Apis.success (call_create_booking env (length (booking_log w)) (booking_args s))
    = true ->
  truthy_str
    (Apis.booking_ref
       (call_create_booking env (length (booking_log w)) (booking_args s))) = false ->
  exists (r : Run) (second : Apis.BookingResult) (later : list BaseMessage),
    invoke env s w = Ok r
    /\ visited r = [ Graph.router; Graph.handle_confirmation;
                     Graph.create_booking; Graph.handle_booking_error ]
    /\ booking_log (world r)
       = (booking_log w
          ++ [ (booking_args s,
                call_create_booking env (length (booking_log w)) (booking_args s));
               (booking_args s, second) ])%list
    /\ sms_log (world r) = sms_log w
    /\ messages (final r)
       = (messages s
          ++ AIMessage
               ("Perfect! I've created your booking. Reference: "
                ++ fmt_str
                     (Apis.booking_ref
                        (call_create_booking env (length (booking_log w))
                           (booking_args s))))
             :: later)%list.
Proof.
  intros Haw Hyes Hok Hempty.
  pose (s1 := apply_update s [K_user_confirmed true; K_awaiting_confirmation false]).
  pose (first := call_create_booking env (length (booking_log w)) (booking_args s)).
  pose (s2 := apply_update s1
                [ K_booking_ref (Apis.booking_ref first);
                  K_messages
                    [AIMessage ("Perfect! I've created your booking. Reference: "
                                ++ fmt_str (Apis.booking_ref first))] ]).
  assert (Hok1 : Apis.success (next_booking_result env s1 w) = true) by exact Hok.
  assert (Hstep : step env Graph.create_booking s1 w
                  = Ok (Graph.handle_booking_error, s2, booking_logged env s1 w)).
  { rewrite step_create_booking, (create_booking_node_success env s1 w Hok1).
    cbn [fst snd]. cbv zeta.
    change (apply_update s1 _) with s2.
    replace (State.booking_ref s2) with (Apis.booking_ref first) by reflexivity.
    unfold first. rewrite Hempty. reflexivity. }
  pose (w1 := booking_logged env s1 w).
  destruct (handle_booking_error_node env s2 w1) as [u w2] eqn:Hnode.
  assert (Hw2 : w2 = booking_logged env s2 w1).
  { pose proof (handle_booking_error_node_log env s2 w1) as H.
    rewrite Hnode in H. exact H. }
  assert (Hu : exists later, messages (apply_update s2 u)
                             = (messages s2 ++ later)%list).
  { destruct (Apis.success (next_booking_result env s2 w1)) eqn:H2.
    - rewrite (handle_booking_error_node_success env s2 w1 H2) in Hnode.
      injection Hnode as <- _. eexists. reflexivity.
    - rewrite (handle_booking_error_node_failure env s2 w1 H2) in Hnode.
      injection Hnode as <- _. eexists. reflexivity. }
  destruct Hu as [later Hlater].
  exists {| final := apply_update s2 u; world := w2;
            visited := [ Graph.router; Graph.handle_confirmation;
                         Graph.create_booking; Graph.handle_booking_error ] |},
         (next_booking_result env s2 w1), later.
  split.
  - rewrite invoke_eq. unfold recursion_limit.
    run_node ltac:(rewrite step_router, Haw).
    run_node ltac:(rewrite step_handle_confirmation,
                     (handle_confirmation_node_proceed env s Hyes)).
    erewrite run_step; [ | discriminate | exact Hstep ].
    erewrite run_step;
      [ | discriminate
        | rewrite step_handle_booking_error; fold w1; rewrite Hnode; reflexivity ].
    apply run_END.
  - cbn [final world visited]. subst w2.
    split; [reflexivity |].
    split; [cbn; rewrite <- app_assoc; reflexivity |].
    split; [reflexivity |].
    rewrite Hlater. cbn. rewrite <- app_assoc. reflexivity.
Qed.

(** Witness of X4: the service answers success with no reference. *)
Lemma success_without_reference_is_retried_witness :
  let env := Fixtures.patched (Fixtures.no_fields "ok")
               (Fixtures.decision true None)
               (fun _ => {| Apis.success := true; Apis.booking_ref := None |})
               true in
  let s := Fixtures.awaiting_reply "yes" in
  let w := empty_world in
  awaiting_confirmation s = true
  /\ ConfirmationResponse.user_wants_to_proceed (call_llm_confirmation env s) = true
  /\ Apis.success (call_create_booking env (length (booking_log w)) (booking_args s))
     = true
  /\ truthy_str
       (Apis.booking_ref
          (call_create_booking env (length (booking_log w)) (booking_args s))) = false
  /\ exists (r : Run) (second : Apis.BookingResult) (later : list BaseMessage),
      invoke env s w = Ok r
      /\ visited r = [ Graph.router; Graph.handle_confirmation;
                       Graph.create_booking; Graph.handle_booking_error ]
      /\ booking_log (world r)
         = (booking_log w
            ++ [ (booking_args s,
                  call_create_booking env (length (booking_log w)) (booking_args s));
                 (booking_args s, second) ])%list
      /\ sms_log (world r) = sms_log w
      /\ messages (final r)
         = (messages s
            ++ AIMessage
                 ("Perfect! I've created your booking. Reference: "
                  ++ fmt_str
                       (Apis.booking_ref
                          (call_create_booking env (length (booking_log w))
                             (booking_args s))))
               :: later)%list.
Proof.
  cbv zeta.
  split; [reflexivity |]. split; [reflexivity |].
  split; [reflexivity |]. split; [reflexivity |].
  apply success_without_reference_is_retried; reflexivity.
Defined.

(** ** One turn on each side of the router *)

Section Turns.
Variable env : Adapters.

(** Split on the outcome of the call that a commit node makes. *)
Ltac by_outcome n s w :=
  destruct n; try discriminate; cbn [Graph.node_function fst snd];
  [ destruct (Apis.success (next_booking_result env s w)) eqn:Hcall;
    [ rewrite (create_booking_node_success env s w Hcall)
    | rewrite (create_booking_node_failure env s w Hcall) ]
  | destruct (Apis.sms_success (next_sms_result env s w)) eqn:Hcall;
    [ rewrite (send_sms_node_success env s w Hcall)
    | rewrite (send_sms_node_failure env s w Hcall) ]
  | destruct (Apis.success (next_booking_result env s w)) eqn:Hcall;
    [ rewrite (handle_booking_error_node_success env s w Hcall)
    | rewrite (handle_booking_error_node_failure env s w Hcall) ]
  | idtac ];
  cbn [fst snd].

(** The commit nodes write none of the routing flags. *)
Lemma commit_node_keeps_flags (n : Node) (s : BookingState) (w : World) :
  is_commit_node n = true ->
  flags (apply_update s (fst (Graph.node_function env n s w))) = flags s.
Proof. intros Hn. by_outcome n s w; reflexivity. Qed.

(** The confirmation node always leaves the waiting state, and records
    the decision as the classifier gave it. *)
Lemma handle_confirmation_flags (s : BookingState) :
  let s1 := apply_update s (handle_confirmation_node env s) in
  awaiting_confirmation s1 = false
  /\ user_confirmed s1
     = ConfirmationResponse.user_wants_to_proceed (call_llm_confirmation env s)
  /\ all_info_collected s1 = all_info_collected s.
Proof.
  unfold handle_confirmation_node.
  destruct (ConfirmationResponse.requested_changes (call_llm_confirmation env s))
    as [[|c changes]|];
    destruct (ConfirmationResponse.user_wants_to_proceed (call_llm_confirmation env s));
    cbn; repeat split.
Qed.

(** What a run on a state that waits for a confirmation leaves. *)
Lemma confirmation_outcome_facts (s : BookingState) (w : World) :
  let r := confirmation_outcome env s w in
  let proceed :=
    ConfirmationResponse.user_wants_to_proceed (call_llm_confirmation env s) in
  awaiting_confirmation (final r) = false
  /\ user_confirmed (final r) = proceed
  /\ all_info_collected (final r) = all_info_collected s
  /\ same_six s (final r)
  /\ exists bookings,
       booking_log (world r) = (booking_log w ++ bookings)%list
       /\ Forall (fun call => fst call = booking_args s) bookings
       /\ (bookings = [] <-> proceed = false).
Proof.
  cbv zeta.
  destruct (handle_confirmation_flags s) as (Ha & Hu & Hi). cbv zeta in Ha, Hu, Hi.
  pose proof (handle_confirmation_keeps_six env s) as Hsix1.
  unfold confirmation_outcome.
  set (s1 := apply_update s (handle_confirmation_node env s)) in *.
  rewrite <- Hu.
  destruct (user_confirmed s1) eqn:Hconf.
  - pose proof (create_booking_keeps_six env s1 w) as Hsix2.
    pose proof (commit_node_keeps_flags Graph.create_booking s1 w eq_refl) as Hf2.
    cbn [Graph.node_function] in Hf2.
    rewrite create_booking_node_log.
    set (s2 := apply_update s1 (fst (create_booking_node env s1 w))) in *.
    assert (F2 : flags s2 = (false, true, all_info_collected s))
      by (rewrite Hf2; unfold flags; rewrite Ha, Hconf, Hi; reflexivity).
    assert (Hsix02 : same_six s s2) by (eapply same_six_trans; eassumption).
    destruct (truthy_str (State.booking_ref s2)).
    + pose proof (send_sms_keeps_six env s2 (booking_logged env s1 w)) as Hsix3.
      pose proof (commit_node_keeps_flags Graph.send_sms s2
                    (booking_logged env s1 w) eq_refl) as Hf3.
      cbn [Graph.node_function] in Hf3.
      rewrite send_sms_node_log.
      set (s3 := apply_update s2 (fst (send_sms_node env s2 (booking_logged env s1 w))))
        in *.
      assert (F3 : flags s3 = (false, true, all_info_collected s))
        by (rewrite Hf3; exact F2).
      assert (Hsix03 : same_six s s3) by (eapply same_six_trans; eassumption).
      assert (Hlog : exists bookings,
                 booking_log (booking_logged env s1 w)
                 = (booking_log w ++ bookings)%list
                 /\ Forall (fun call => fst call = booking_args s) bookings
                 /\ (bookings = [] <-> true = false)).
      { exists [(booking_args s1, next_booking_result env s1 w)].
        split; [reflexivity |].
        split; [constructor; [apply booking_args_same, Hsix1 | constructor] |].
        split; discriminate. }
      unfold flags in F3. injection F3 as Fa Fu Fi.
      destruct (last_has_phrase s3); cbn [final world].
      * repeat split; assumption || apply Hsix03.
      * change (awaiting_confirmation (apply_update s3 (handle_sms_error_node s3)))
          with (awaiting_confirmation s3).
        change (user_confirmed (apply_update s3 (handle_sms_error_node s3)))
          with (user_confirmed s3).
        change (all_info_collected (apply_update s3 (handle_sms_error_node s3)))
          with (all_info_collected s3).
        split; [exact Fa |]. split; [exact Fu |]. split; [exact Fi |].
        split; [exact Hsix03 | exact Hlog].
    + pose proof (node_keeps_six env Graph.handle_booking_error s2
                    (booking_logged env s1 w)) as Hsix3.
      pose proof (commit_node_keeps_flags Graph.handle_booking_error s2
                    (booking_logged env s1 w) eq_refl) as Hf3.
      cbn [Graph.node_function] in Hf3, Hsix3.
      rewrite handle_booking_error_node_log.
      set (s3 := apply_update s2
                   (fst (handle_booking_error_node env s2 (booking_logged env s1 w))))
        in *.
      assert (F3 : flags s3 = (false, true, all_info_collected s))
        by (rewrite Hf3; exact F2).
      unfold flags in F3. injection F3 as Fa Fu Fi.
      cbn [final world].
      split; [exact Fa |]. split; [exact Fu |]. split; [exact Fi |].
      split; [eapply same_six_trans; [exact Hsix02 | apply Hsix3; discriminate] |].
      exists [(booking_args s1, next_booking_result env s1 w);
              (booking_args s2,
               next_booking_result env s2 (booking_logged env s1 w))].
      split; [cbn; rewrite <- app_assoc; reflexivity |].
      split.
      * constructor; [apply booking_args_same, Hsix1 |].
        constructor; [apply booking_args_same, Hsix02 | constructor].
      * split; discriminate.
  - cbn [final world].
    split; [exact Ha |]. split; [exact Hconf |]. split; [exact Hi |].
    split; [exact Hsix1 |].
    exists []. split; [rewrite app_nil_r; reflexivity |].
    split; [constructor | split; reflexivity].
Qed.

End Turns.

Section Yield.
Variable env : Adapters.

(** What a run on a state that does not wait for a confirmation
    leaves. *)
Lemma collect_outcome_facts (s : BookingState) (w : World) :
  awaiting_confirmation s = false ->
  let r := collect_outcome env s w in
  let reply := BookingInfo.response_message (call_llm_booking_info env s) in
  world r = w
  /\ awaiting_confirmation (final r) = all_filled (final r)
  /\ all_info_collected (final r)
     = all_info_collected s || all_filled (final r)
  /\ user_confirmed (final r) = user_confirmed s
  /\ State.booking_ref (final r) = State.booking_ref s
  /\ conversation_complete (final r) = conversation_complete s
  /\ messages (final r)
     = (messages s
        ++ AIMessage reply
           :: (if all_filled (final r)
               then [AIMessage (confirmation_message (final r))] else []))%list
  /\ visited r
     = (Graph.router :: Graph.collect_info
        :: (if all_filled (final r) then [Graph.confirm] else []))%list.
Proof.
  intros Haw. cbv zeta. unfold collect_outcome.
  destruct (collect_info_merge env s) as (_ & _ & _ & _ & _ & _ & Hb & Hc & Hm).
  assert (Hflags : flags (apply_update s (collect_info_node env s)) = flags s).
  { clear. unfold collect_info_node.
    destruct (call_llm_booking_info env s) as [r d t p c ph msg].
    cbn [BookingInfo.restaurant_name BookingInfo.date BookingInfo.time
         BookingInfo.party_size BookingInfo.customer_name BookingInfo.phone
         BookingInfo.response_message].
    destruct r as [[|? ?]|], d as [[|? ?]|], t as [[|? ?]|], p as [[|?|?]|],
             c as [[|? ?]|], ph as [[|? ?]|]; reflexivity. }
  cbv zeta in Hb, Hc, Hm.
  set (s1 := apply_update s (collect_info_node env s)) in *.
  unfold flags in Hflags. injection Hflags as Fa Fu Fi.
  destruct (all_filled s1) eqn:Hall; cbn [final world visited].
  - change (all_filled (apply_update s1 (confirm_node s1))) with (all_filled s1).
    rewrite Hall.
    split; [reflexivity |]. split; [reflexivity |].
    split; [cbn; rewrite orb_true_r; reflexivity |].
    split; [exact Fu |]. split; [exact Hb |]. split; [exact Hc |].
    split; [| reflexivity].
    cbn [confirm_node apply_update fold_left apply_entry messages].
    rewrite Hm, <- app_assoc. reflexivity.
  - rewrite Hall.
    split; [reflexivity |]. split; [rewrite Fa; exact Haw |].
    split; [rewrite orb_false_r; exact Fi |].
    split; [exact Fu |]. split; [exact Hb |]. split; [exact Hc |].
    split; [exact Hm | reflexivity].
Qed.

(** X5. A turn that is not a reply to the summary. On a state that is
    not waiting for a confirmation, [invoke] calls no commit service,
    appends the model's reply, and shows the summary in the same run
    exactly when the six fields are all filled after the merge: then,
    and only then, the state comes back waiting for a confirmation.
    [booking_ref], [user_confirmed] and [conversation_complete] are
    left as they were. *)
Theorem collection_turn (s : BookingState) (w : World) :
  awaiting_confirmation s = false ->
  exists r : Run,
    invoke env s w = Ok r
    /\ world r = w
    /\ awaiting_confirmation (final r) = all_filled (final r)
    /\ (awaiting_confirmation (final r) = true <-> all_six_present (final r))
    /\ all_info_collected (final r)
       = all_info_collected s || all_filled (final r)
    /\ user_confirmed (final r) = user_confirmed s
    /\ State.booking_ref (final r) = State.booking_ref s
    /\ conversation_complete (final r) = conversation_complete s
    /\ messages (final r)
       = (messages s
          ++ AIMessage (BookingInfo.response_message (call_llm_booking_info env s))
             :: (if all_filled (final r)
                 then [AIMessage (confirmation_message (final r))] else []))%list
    /\ visited r
       = (Graph.router :: Graph.collect_info
          :: (if all_filled (final r) then [Graph.confirm] else []))%list.
Proof.
  intros Haw. exists (collect_outcome env s w).
  destruct (collect_outcome_facts s w Haw)
    as (H1 & H2 & H3 & H4 & H5 & H6 & H7 & H8).
  cbv zeta in *.
  split; [rewrite (invoke_collects env s w Haw); reflexivity |].
  split; [exact H1 |]. split; [exact H2 |].
  split; [rewrite H2; apply all_filled_true |].
  repeat (split; [assumption |]). assumption.
Qed.

(** X6. A turn that is a reply to the summary. On a state that is
    waiting for a confirmation, [invoke] always comes back not waiting;
    [user_confirmed] is the classifier's decision; the six fields and
    [all_info_collected] are left as they were; and [create_booking] is
    called if and only if the decision is to proceed, each time with
    the six fields of the state. *)
Theorem confirmation_turn (s : BookingState) (w : World) :
  awaiting_confirmation s = true ->
  exists (r : Run) (bookings : list (Apis.BookingArgs * Apis.BookingResult)),
    invoke env s w = Ok r
    /\ awaiting_confirmation (final r) = false
    /\ user_confirmed (final r)
       = ConfirmationResponse.user_wants_to_proceed (call_llm_confirmation env s)
    /\ all_info_collected (final r) = all_info_collected s
    /\ same_six s (final r)
    /\ booking_log (world r) = (booking_log w ++ bookings)%list
    /\ Forall (fun call => fst call = booking_args s) bookings
    /\ (bookings = []
        <-> ConfirmationResponse.user_wants_to_proceed (call_llm_confirmation env s)
            = false).
Proof.
  intros Haw.
  destruct (confirmation_outcome_facts env s w)
    as (H1 & H2 & H3 & H4 & bookings & H5 & H6 & H7).
  exists (confirmation_outcome env s w), bookings.
  split; [apply invoke_confirms, Haw |].
  repeat (split; [assumption |]). assumption.
Qed.

End Yield.

(** Witness of X5: the user gives every detail in the first line. *)
Lemma collection_turn_witness :
  let env := Fixtures.mock_services (Fixtures.all_fields "Thanks.")
               (Fixtures.decision true None) in
  let s := append_user_message initial_state "Mario's Italian tomorrow at 7 for 4" in
  awaiting_confirmation s = false
  /\ exists r : Run,
      invoke env s empty_world = Ok r
      /\ world r = empty_world
      /\ awaiting_confirmation (final r) = all_filled (final r)
      /\ (awaiting_confirmation (final r) = true <-> all_six_present (final r))
      /\ all_info_collected (final r)
         = all_info_collected s || all_filled (final r)
      /\ user_confirmed (final r) = user_confirmed s
      /\ State.booking_ref (final r) = State.booking_ref s
      /\ conversation_complete (final r) = conversation_complete s
      /\ messages (final r)
         = (messages s
            ++ AIMessage (BookingInfo.response_message (call_llm_booking_info env s))
               :: (if all_filled (final r)
                   then [AIMessage (confirmation_message (final r))] else []))%list
      /\ visited r
         = (Graph.router :: Graph.collect_info
            :: (if all_filled (final r) then [Graph.confirm] else []))%list.
Proof.
  intros env s. split; [reflexivity |].
  apply (collection_turn env s empty_world). reflexivity.
Defined.

(** Witness of X6: the user answers yes to the summary. *)
Lemma confirmation_turn_witness :
  let env := Fixtures.mock_services (Fixtures.no_fields "ok")
               (Fixtures.decision true None) in
  let s := Fixtures.awaiting_reply "yes" in
  awaiting_confirmation s = true
  /\ exists (r : Run) (bookings : list (Apis.BookingArgs * Apis.BookingResult)),
      invoke env s empty_world = Ok r
      /\ awaiting_confirmation (final r) = false
      /\ user_confirmed (final r)
         = ConfirmationResponse.user_wants_to_proceed (call_llm_confirmation env s)
      /\ all_info_collected (final r) = all_info_collected s
      /\ same_six s (final r)
      /\ booking_log (world r) = (booking_log empty_world ++ bookings)%list
      /\ Forall (fun call => fst call = booking_args s) bookings
      /\ (bookings = []
          <-> ConfirmationResponse.user_wants_to_proceed (call_llm_confirmation env s)
              = false).
Proof.
  intros env s. split; [reflexivity |].
  apply (confirmation_turn env s empty_world). reflexivity.
Defined.

(** ** Invariants of a session *)

Section SessionInvariants.

Lemma same_six_present (s s' : BookingState) :
  same_six s s' -> (all_six_present s' <-> all_six_present s).
Proof.
  intros (H1 & H2 & H3 & H4 & H5 & H6). unfold all_six_present.
  rewrite H1, H2, H3, H4, H5, H6. tauto.
Qed.

Lemma same_six_keeps_fields (s s' : BookingState) :
  same_six s s' -> keeps_fields s s'.
Proof.
  intros (H1 & H2 & H3 & H4 & H5 & H6). unfold keeps_fields.
  rewrite H1, H2, H3, H4, H5, H6. tauto.
Qed.


Lemma keeps_fields_present (s s' : BookingState) :
  keeps_fields s s' -> all_six_present s -> all_six_present s'.
Proof. unfold keeps_fields, all_six_present. tauto. Qed.

(** No invoke clears a booking field. *)
Lemma invoke_keeps_fields (env : Adapters) (s : BookingState) (w : World) (r : Run) :
  invoke env s w = Ok r -> keeps_fields s (final r).
Proof.
  rewrite invoke_is_outcome. intros H. injection H as <-.
  unfold invoke_outcome. destruct (awaiting_confirmation s) eqn:Haw.
  - apply same_six_keeps_fields.
    apply (confirmation_outcome_facts env s w).
  - unfold collect_outcome.
    pose proof (collect_info_keeps env s) as Hk. cbv zeta in Hk.
    set (s1 := apply_update s (collect_info_node env s)) in *.
    destruct (all_filled s1); exact Hk.
Qed.

(** The flags agree with the fields after every invoke that started
    from a state where they did. *)
Lemma invoke_keeps_yield_invariant
    (env : Adapters) (s : BookingState) (w : World) (r : Run) :
  yield_invariant s -> invoke env s w = Ok r -> yield_invariant (final r).
Proof.
  intros [Hinfo Hwait] Hrun.
  pose proof (invoke_keeps_fields env s w r Hrun) as Hkeep.
  rewrite invoke_is_outcome in Hrun. injection Hrun as <-.
  unfold invoke_outcome in *. destruct (awaiting_confirmation s) eqn:Haw.
  - destruct (confirmation_outcome_facts env s w) as (Ha & _ & Hi & Hsix & _).
    cbv zeta in Ha, Hi, Hsix. split.
    + rewrite Hi, (same_six_present _ _ Hsix). exact Hinfo.
    + rewrite Ha. discriminate.
  - destruct (collect_outcome_facts env s w Haw) as (_ & Ha & Hi & _).
    cbv zeta in Ha, Hi. split.
    + rewrite Hi, <- all_filled_true. split.
      * intros H. apply orb_true_iff in H. destruct H as [H | H]; [| exact H].
        apply all_filled_true. apply (keeps_fields_present s); [exact Hkeep |].
        apply Hinfo, H.
      * intros H. rewrite H. apply orb_true_r.
    + rewrite Ha. apply all_filled_true.
Qed.

Lemma initial_state_yield_invariant : yield_invariant initial_state.
Proof.
  split.
  - split; [discriminate |]. intros (H & _). exfalso. apply H. reflexivity.
  - discriminate.
Qed.

(** An induction principle for sessions: what the user's line does not
    touch and every invoke keeps, holds at the end. *)
Lemma session_invariant (P : BookingState -> World -> Prop) :
  (forall s w text, P s w -> P (append_user_message s text) w) ->
  (forall env s w r, P s w -> invoke env s w = Ok r -> P (final r) (world r)) ->
  forall turns s0 w0 s w,
    P s0 w0 -> session turns s0 w0 = Ok (s, w) -> P s w.
Proof.
  intros Huser Hinvoke.
  induction turns as [|[env text] rest IH]; intros s0 w0 s w H0 Hs.
  - simpl in Hs. injection Hs as <- <-. exact H0.
  - cbn [session] in Hs. rewrite turn_eq in Hs.
    destruct (invoke env (append_user_message s0 text) w0) as [r|e] eqn:Hr;
      [|discriminate].
    apply (IH (final r) (world r) s w); [|exact Hs].
    apply (Hinvoke env (append_user_message s0 text) w0 r); [|exact Hr].
    apply Huser, H0.
Qed.

(** X7. In a session started from the initial state, whenever the
    machine hands the state back, [all_info_collected] is true exactly
    when the six booking fields are all filled, and the session waits
    for a confirmation only when they are. *)
Theorem flags_agree_with_fields
    (turns : list (Adapters * string)) (s : BookingState) (w : World) :
  session turns initial_state empty_world = Ok (s, w) ->
  (all_info_collected s = true <-> all_six_present s)
  /\ (awaiting_confirmation s = true -> all_six_present s).
Proof.
  intros Hs.
  apply (session_invariant (fun s _ => yield_invariant s))
    with (turns := turns) (s0 := initial_state) (w0 := empty_world) (w := w).
  - intros s0 w0 text H. exact H.
  - intros env s0 w0 r H Hr. exact (invoke_keeps_yield_invariant env s0 w0 r H Hr).
  - exact initial_state_yield_invariant.
  - exact Hs.
Qed.

(** X8. In a session started from the initial state, every call made
    to [create_booking] carries all six arguments: none is [None]. *)
Theorem bookings_are_complete
    (turns : list (Adapters * string)) (s : BookingState) (w : World) :
  session turns initial_state empty_world = Ok (s, w) ->
  Forall (fun call => args_complete (fst call)) (booking_log w).
Proof.
  intros Hs.
  refine (proj2 (session_invariant
                   (fun s w => yield_invariant s
                               /\ Forall (fun call => args_complete (fst call))
                                         (booking_log w))
                   _ _ turns initial_state empty_world s w _ Hs)).
  - intros s0 w0 text H. exact H.
  - intros env s0 w0 r [Hy Hlog] Hr.
    split; [exact (invoke_keeps_yield_invariant env s0 w0 r Hy Hr) |].
    rewrite invoke_is_outcome in Hr. injection Hr as <-.
    unfold invoke_outcome. destruct (awaiting_confirmation s0) eqn:Haw.
    + destruct (confirmation_outcome_facts env s0 w0)
        as (_ & _ & _ & _ & bookings & Hb & Hargs & _).
      cbv zeta in Hb. rewrite Hb. apply Forall_app. split; [exact Hlog |].
      apply (Forall_impl _ (P := fun call => fst call = booking_args s0));
        [| exact Hargs].
      intros call ->. apply (proj2 Hy Haw).
    + destruct (collect_outcome_facts env s0 w0 Haw) as (Hw & _).
      cbv zeta in Hw. rewrite Hw. exact Hlog.
  - split; [exact initial_state_yield_invariant | constructor].
Qed.


End SessionInvariants.

(** Witness of X7: the session of two turns. *)
Lemma flags_agree_with_fields_witness :
  exists (s : BookingState) (w : World),
    session Fixtures.two_turns initial_state empty_world = Ok (s, w)
    /\ (all_info_collected s = true <-> all_six_present s)
    /\ (awaiting_confirmation s = true -> all_six_present s).
Proof.
  eexists. eexists.
  split; [vm_compute; reflexivity |].
  eapply (flags_agree_with_fields Fixtures.two_turns).
  vm_compute. reflexivity.
Defined.

(** Witness of X8: the session of two turns makes one booking call. *)
Lemma bookings_are_complete_witness :
  exists (s : BookingState) (w : World),
    session Fixtures.two_turns initial_state empty_world = Ok (s, w)
    /\ length (booking_log w) = 1
    /\ Forall (fun call => args_complete (fst call)) (booking_log w).
Proof.
  eexists. eexists.
  split; [vm_compute; reflexivity |].
  split; [reflexivity |].
  eapply (bookings_are_complete Fixtures.two_turns).
  vm_compute. reflexivity.
Defined.


(** ** The history *)

Section History.
Variable env : Adapters.

Lemma from_assistant_one (text : string) : all_from_assistant [AIMessage text].
Proof. constructor; [reflexivity | constructor]. Qed.

Lemma from_assistant_two (a b : string) :
  all_from_assistant [AIMessage a; AIMessage b].
Proof. constructor; [reflexivity | apply from_assistant_one]. Qed.

(** What a run on a state that waits for a confirmation appends. *)
Lemma confirmation_outcome_messages (s : BookingState) (w : World) :
  exists added : list BaseMessage,
    messages (final (confirmation_outcome env s w)) = (messages s ++ added)%list
    /\ all_from_assistant added
    /\ length added <= 2
    /\ (added = []
        <-> ConfirmationResponse.user_wants_to_proceed (call_llm_confirmation env s)
            = false
            /\ truthy_str
                 (ConfirmationResponse.requested_changes (call_llm_confirmation env s))
               = false).
Proof.
  unfold confirmation_outcome.
  destruct (ConfirmationResponse.user_wants_to_proceed (call_llm_confirmation env s))
    eqn:Hyes.
  - rewrite (handle_confirmation_node_proceed env s Hyes).
    set (s1 := apply_update s [K_user_confirmed true; K_awaiting_confirmation false]).
    change (user_confirmed s1) with true. cbv iota.
    rewrite create_booking_node_log.
    destruct (Apis.success (next_booking_result env s1 w)) eqn:Hb1.
    + rewrite (create_booking_node_success env s1 w Hb1). cbn [fst].
      set (said := "Perfect! I've created your booking. Reference: "
                   ++ fmt_str (Apis.booking_ref (next_booking_result env s1 w))).
      set (s2 := apply_update s1 _).
      assert (Hm2 : messages s2 = (messages s ++ [AIMessage said])%list)
        by reflexivity.
      destruct (truthy_str (State.booking_ref s2)).
      * set (w1 := booking_logged env s1 w).
        destruct (Apis.sms_success (next_sms_result env s2 w1)) eqn:Hsms.
        -- rewrite (send_sms_node_success env s2 w1 Hsms). cbn [fst snd].
           set (s3 := apply_update s2 _).
           assert (Hm3 : messages s3
                         = (messages s ++ [AIMessage said; AIMessage sms_sent_message])%list).
           { change (messages s3) with (messages s2 ++ [AIMessage sms_sent_message])%list.
             rewrite Hm2, <- app_assoc. reflexivity. }
           assert (Hp : last_has_phrase s3 = true).
           { unfold last_has_phrase.
             change (messages s3) with (messages s2 ++ [AIMessage sms_sent_message])%list.
             rewrite last_item_app. apply sms_sent_message_has_phrase. }
           rewrite Hp. cbn [final].
           exists [AIMessage said; AIMessage sms_sent_message].
           split; [exact Hm3 |]. split; [apply from_assistant_two |].
           split; [cbn; lia |].
           split; [discriminate | intros [H _]; discriminate H].
        -- rewrite (send_sms_node_failure env s2 w1 Hsms).
           cbn [fst snd apply_update fold_left].
           destruct (last_has_phrase s2); cbn [final].
           ++ exists [AIMessage said].
              split; [exact Hm2 |]. split; [apply from_assistant_one |].
              split; [cbn; lia |].
              split; [discriminate | intros [H _]; discriminate H].
           ++ exists [AIMessage said; AIMessage (sms_error_message s2)].
              split.
              { change (messages (apply_update s2 (handle_sms_error_node s2)))
                  with (messages s2 ++ [AIMessage (sms_error_message s2)])%list.
                rewrite Hm2, <- app_assoc. reflexivity. }
              split; [apply from_assistant_two |].
              split; [cbn; lia |].
              split; [discriminate | intros [H _]; discriminate H].
      * set (w1 := booking_logged env s1 w).
        destruct (Apis.success (next_booking_result env s2 w1)) eqn:Hb2;
          [ rewrite (handle_booking_error_node_success env s2 w1 Hb2)
          | rewrite (handle_booking_error_node_failure env s2 w1 Hb2) ];
          cbn [fst final];
          eexists;
          (split;
           [ cbn [apply_update fold_left apply_entry messages];
             rewrite Hm2, <- app_assoc; reflexivity |]);
          (split; [apply from_assistant_two |]);
          (split; [cbn; lia |]);
          (split; [discriminate | intros [H _]; discriminate H]).
    + rewrite (create_booking_node_failure env s1 w Hb1). cbn [fst].
      set (s2 := apply_update s1 [K_booking_ref None]).
      change (truthy_str (State.booking_ref s2)) with false. cbv iota.
      set (w1 := booking_logged env s1 w).
      destruct (Apis.success (next_booking_result env s2 w1)) eqn:Hb2;
        [ rewrite (handle_booking_error_node_success env s2 w1 Hb2)
        | rewrite (handle_booking_error_node_failure env s2 w1 Hb2) ];
        cbn [fst final];
        eexists;
        (split; [cbn [apply_update fold_left apply_entry messages]; reflexivity |]);
        (split; [apply from_assistant_one |]);
        (split; [cbn; lia |]);
        (split; [discriminate | intros [H _]; discriminate H]).
  - unfold handle_confirmation_node. rewrite Hyes.
    destruct (ConfirmationResponse.requested_changes (call_llm_confirmation env s))
      as [[|c changes]|]; cbn.
    + exists []. rewrite app_nil_r.
      split; [reflexivity |]. split; [constructor |]. split; [cbn; lia |].
      split; [intros _; split; reflexivity | reflexivity].
    + eexists. split; [reflexivity |].
      split; [apply from_assistant_one |]. split; [cbn; lia |].
      split; [discriminate | intros [_ H]; discriminate H].
    + exists []. rewrite app_nil_r.
      split; [reflexivity |]. split; [constructor |]. split; [cbn; lia |].
      split; [intros _; split; reflexivity | reflexivity].
Qed.

End History.

(** X10. The history is append-only, and a turn adds little to it. A
    turn returns with the old history, then the user's line, then at
    most two messages, all written by the assistant; nothing earlier is
    edited or removed. The assistant says nothing at all in one case
    only: the state was waiting for a confirmation and the classifier
    answered no with an empty [requested_changes]. *)
Theorem turn_appends_to_history
    (env : Adapters) (text : string) (s : BookingState) (w : World) :
  exists (r : Run) (added : list BaseMessage),
    turn env text s w = Ok r
    /\ messages (final r) = (messages s ++ HumanMessage text :: added)%list
    /\ all_from_assistant added
    /\ length added <= 2
    /\ (added = []
        <-> awaiting_confirmation s = true
            /\ ConfirmationResponse.user_wants_to_proceed
                 (call_llm_confirmation env (append_user_message s text)) = false
            /\ truthy_str
                 (ConfirmationResponse.requested_changes
                    (call_llm_confirmation env (append_user_message s text)))
               = false).
Proof.
  set (s0 := append_user_message s text).
  assert (Hm0 : messages s0 = (messages s ++ [HumanMessage text])%list) by reflexivity.
  assert (Ha0 : awaiting_confirmation s0 = awaiting_confirmation s) by reflexivity.
  exists (invoke_outcome env s0 w).
  unfold invoke_outcome. rewrite <- Ha0.
  destruct (awaiting_confirmation s0) eqn:Haw.
  - destruct (confirmation_outcome_messages env s0 w) as (added & H1 & H2 & H3 & H4).
    exists added.
    split; [rewrite turn_eq; apply invoke_confirms, Haw |].
    split; [rewrite H1, Hm0, <- app_assoc; reflexivity |].
    split; [exact H2 |]. split; [exact H3 |].
    rewrite H4. tauto.
  - destruct (collect_outcome_facts env s0 w Haw) as (_ & _ & _ & _ & _ & _ & Hm & _).
    cbv zeta in Hm.
    eexists.
    split; [rewrite turn_eq; apply (invoke_collects env s0 w Haw) |].
    split; [rewrite Hm, Hm0, <- app_assoc; reflexivity |].
    destruct (all_filled (final (collect_outcome env s0 w))).
    + split; [apply from_assistant_two |]. split; [cbn; lia |].
      split; [discriminate | intros [H _]; discriminate H].
    + split; [apply from_assistant_one |]. split; [cbn; lia |].
      split; [discriminate | intros [H _]; discriminate H].
Qed.

(** ** The error handlers *)

(** X11. When the retry fails too, the message of the booking error
    handler restates every detail the user gave: it holds the
    restaurant, date, time, party size, name and phone. The handler
    completes the conversation and does not write [booking_ref]. *)
Theorem callback_message_restates_details
    (env : Adapters) (s : BookingState) (w : World) :
  Apis.success (call_create_booking env (length (booking_log w)) (booking_args s))
    = false ->
  exists text : string,
    fst (handle_booking_error_node env s w)
      = [K_messages [AIMessage text]; K_conversation_complete true]
    /\ contains (fmt_str (restaurant_name s)) text = true
    /\ contains (fmt_str (State.date s)) text = true
    /\ contains (fmt_str (State.time s)) text = true
    /\ contains (fmt_int (State.party_size s)) text = true
    /\ contains (fmt_str (customer_name s)) text = true
    /\ contains (fmt_str (State.phone s)) text = true
    /\ contains "call you back" text = true.
Proof.
  intros Hfail. exists (booking_error_message s).
  rewrite (handle_booking_error_node_failure env s w Hfail).
  destruct (booking_error_message_parts s) as (P1 & P2 & P3 & P4 & P5 & P6).
  split; [reflexivity |].
  repeat (split; [assumption |]).
  unfold booking_error_message.
  repeat apply contains_later. vm_compute. reflexivity.
Qed.

(** ** The references of the mock booking service *)

Section References.

Lemma append_assoc (a b c : string) : (a ++ b) ++ c = a ++ (b ++ c).
Proof. induction a as [|x a IH]; simpl; [reflexivity | now rewrite IH]. Qed.

Lemma uint_chars (d : Decimal.uint) :
  all_chars digit_or_minus (NilEmpty.string_of_uint d) = true.
Proof. induction d; simpl; try rewrite IHd; reflexivity. Qed.

(** A printed int is made of digits and at most a minus sign. *)
Lemma str_int_chars (n : Z) : all_chars digit_or_minus (str_int n) = true.
Proof.
  unfold str_int, NilZero.string_of_int.
  destruct (Z.to_int n) as [d | d]; unfold NilZero.string_of_uint.
  - destruct d; try reflexivity; apply uint_chars.
  - change (all_chars digit_or_minus
              (String "-" (match d with
                           | Decimal.Nil => "0"
                           | _ => NilEmpty.string_of_uint d
                           end)) = true).
    cbn [all_chars]. replace (digit_or_minus "-") with true by reflexivity.
    cbn [andb]. destruct d; try reflexivity; apply uint_chars.
Qed.

(** Characters apart: a needle none of whose characters satisfies [p]
    cannot begin inside, or run into, a tail all of whose characters
    do. *)
Lemma startswith_tail_apart (p : ascii -> bool) (tail : string) :
  all_chars p tail = true ->
  forall needle front,
    all_chars (fun c => negb (p c)) needle = true ->
    startswith needle (front ++ tail) = startswith needle front.
Proof.
  intros Htail. induction needle as [|a needle IH]; intros front Hneedle.
  - destruct front; destruct tail; reflexivity.
  - cbn [all_chars] in Hneedle. apply andb_true_iff in Hneedle.
    destruct Hneedle as [Ha Hrest].
    destruct front as [|b front].
    + cbn [append]. destruct tail as [|t tail']; [reflexivity |].
      cbn [all_chars] in Htail. apply andb_true_iff in Htail.
      destruct Htail as [Ht _]. cbn [startswith].
      destruct (Ascii.eqb a t) eqn:E; [| reflexivity].
      apply Ascii.eqb_eq in E. subst t. rewrite Ht in Ha. discriminate Ha.
    + cbn [append startswith]. rewrite (IH front Hrest). reflexivity.
Qed.

Lemma contains_tail_apart (p : ascii -> bool) (tail needle : string) :
  all_chars p tail = true ->
  all_chars (fun c => negb (p c)) needle = true ->
  needle <> EmptyString ->
  forall front, contains needle (front ++ tail) = contains needle front.
Proof.
  intros Htail Hneedle Hne.
  assert (Hempty : startswith needle EmptyString = false)
    by (destruct needle; [congruence | reflexivity]).
  assert (Hin : forall t, all_chars p t = true -> contains needle t = false).
  { induction t as [|c t IH]; intros Ht.
    - cbn [contains]. rewrite Hempty. reflexivity.
    - cbn [contains].
      rewrite <- (startswith_tail_apart p (String c t) Ht needle EmptyString Hneedle)
        in Hempty.
      cbn [append] in Hempty. rewrite Hempty.
      cbn [all_chars] in Ht. apply andb_true_iff in Ht. apply IH, Ht. }
  induction front as [|c front IH].
  - cbn [append]. rewrite (Hin tail Htail).
    cbn [contains]. rewrite Hempty. reflexivity.
  - change (String c front ++ tail) with (String c (front ++ tail)).
    cbn [contains]. rewrite IH.
    change (String c (front ++ tail)) with (String c front ++ tail).
    rewrite (startswith_tail_apart p tail Htail needle (String c front) Hneedle).
    reflexivity.
Qed.

(** The announcement of a booking made by the mock service never holds
    the words that [check_sms_success] looks for. *)
Lemma mock_reference_has_no_phrase (number : Z) :
  contains "sent a confirmation SMS"
           ("Perfect! I've created your booking. Reference: "
            ++ "BK-" ++ str_int number) = false.
Proof.
  rewrite <- append_assoc.
  rewrite (contains_tail_apart digit_or_minus (str_int number));
    [ vm_compute; reflexivity
    | apply str_int_chars
    | vm_compute; reflexivity
    | discriminate ].
Qed.

End References.

(** ** The graph over the mock services *)

Section MockServices.
Variable info : BookingState -> BookingInfo.t.
Variable answer : BookingState -> ConfirmationResponse.t.
Variable booking_draw : nat -> bool * Z.
Variable sms_draw : nat -> bool.

(** A success of the mock booking service carries the reference BK-
    followed by the number drawn. *)
Lemma mock_booking_success (unlucky : bool) (number : Z) (a : Apis.BookingArgs) :
  Apis.success (Apis.create_booking unlucky number false a) = true ->
  Apis.create_booking unlucky number false a
    = {| Apis.success := true;
         Apis.booking_ref := Some ("BK-" ++ str_int number) |}.
Proof.
  unfold Apis.create_booking.
  destruct (_ || _ || unlucky); [discriminate | reflexivity].
Qed.

(** The run over the mock services when the first attempt succeeds. *)
Lemma mock_booking_outcome (s : BookingState) (w : World) :
  let env := services info answer booking_draw sms_draw in
  let number := snd (booking_draw (length (booking_log w))) in
  awaiting_confirmation s = true ->
  ConfirmationResponse.user_wants_to_proceed (answer s) = true ->
  Apis.success (call_create_booking env (length (booking_log w)) (booking_args s))
    = true ->
  exists (r : Run) (text : Apis.SmsArgs) (sent : Apis.SmsResult),
    invoke env s w = Ok r
    /\ conversation_complete (final r) = true
    /\ State.booking_ref (final r) = Some ("BK-" ++ str_int number)
    /\ length (booking_log (world r)) = S (length (booking_log w))
    /\ sms_log (world r) = (sms_log w ++ [(text, sent)])%list
    /\ Apis.sms_phone text = State.phone s
    /\ sent = Apis.send_sms (sms_draw (length (sms_log w))) false text
    /\ visited r
       = ([ Graph.router; Graph.handle_confirmation; Graph.create_booking;
            Graph.send_sms ]
          ++ (if Apis.sms_success sent then [] else [Graph.handle_sms_error]))%list.
Proof.
  intros env number Haw Hyes Hok.
  pose proof (invoke_confirms env s w Haw) as Hinv.
  unfold confirmation_outcome in Hinv.
  rewrite (handle_confirmation_node_proceed env s Hyes) in Hinv.
  set (s1 := apply_update s [K_user_confirmed true; K_awaiting_confirmation false]) in *.
  change (user_confirmed s1) with true in Hinv. cbv iota in Hinv.
  assert (Hok1 : Apis.success (next_booking_result env s1 w) = true) by exact Hok.
  assert (Hres : next_booking_result env s1 w
                 = {| Apis.success := true;
                      Apis.booking_ref := Some ("BK-" ++ str_int number) |})
    by (apply mock_booking_success; exact Hok).
  rewrite create_booking_node_log in Hinv.
  rewrite (create_booking_node_success env s1 w Hok1), Hres in Hinv.
  cbn [fst Apis.booking_ref fmt_str] in Hinv.
  set (said := "Perfect! I've created your booking. Reference: "
               ++ "BK-" ++ str_int number) in *.
  set (s2 := apply_update s1 [K_booking_ref (Some ("BK-" ++ str_int number));
                              K_messages [AIMessage said]]) in *.
  change (truthy_str (State.booking_ref s2)) with true in Hinv. cbv iota in Hinv.
  set (w1 := booking_logged env s1 w) in *.
  rewrite send_sms_node_log in Hinv.
  exists (invoke_outcome env s w),
         {| Apis.sms_phone := State.phone s2; Apis.sms_message := sms_message s2 |},
         (next_sms_result env s2 w1).
  unfold invoke_outcome. rewrite Haw.
  destruct (Apis.sms_success (next_sms_result env s2 w1)) eqn:Hsms.
  - rewrite (send_sms_node_success env s2 w1 Hsms) in Hinv. cbn [fst] in Hinv.
    set (s3 := apply_update s2 [K_messages [AIMessage sms_sent_message];
                                K_conversation_complete true]) in *.
    assert (Hp : last_has_phrase s3 = true).
    { unfold last_has_phrase.
      change (messages s3) with (messages s2 ++ [AIMessage sms_sent_message])%list.
      rewrite last_item_app. apply sms_sent_message_has_phrase. }
    rewrite Hp in Hinv.
    assert (Hout : confirmation_outcome env s w
                   = {| final := s3; world := sms_logged env s2 w1;
                        visited := [ Graph.router; Graph.handle_confirmation;
                                     Graph.create_booking; Graph.send_sms ] |}).
    { pose proof (invoke_confirms env s w Haw) as H. rewrite Hinv in H.
      injection H as H. symmetry. exact H. }
    rewrite Hout. split; [exact Hinv |].
    cbn [final world visited]. repeat split.
    cbn. rewrite length_app. cbn. lia.
  - rewrite (send_sms_node_failure env s2 w1 Hsms) in Hinv.
    cbn [fst apply_update fold_left] in Hinv.
    assert (Hp : last_has_phrase s2 = false).
    { unfold last_has_phrase.
      change (messages s2) with (messages s ++ [AIMessage said])%list.
      rewrite last_item_app. apply mock_reference_has_no_phrase. }
    rewrite Hp in Hinv.
    assert (Hout : confirmation_outcome env s w
                   = {| final := apply_update s2 (handle_sms_error_node s2);
                        world := sms_logged env s2 w1;
                        visited := [ Graph.router; Graph.handle_confirmation;
                                     Graph.create_booking; Graph.send_sms;
                                     Graph.handle_sms_error ] |}).
    { pose proof (invoke_confirms env s w Haw) as H. rewrite Hinv in H.
      injection H as H. symmetry. exact H. }
    rewrite Hout. split; [exact Hinv |].
    cbn [final world visited]. repeat split.
    cbn. rewrite length_app. cbn. lia.
Qed.

(** X12. With the mock services of the repository, a booking that
    succeeds at the first attempt always completes the conversation and
    leaves its reference, BK- and the number drawn, in [booking_ref].
    The substring test of [check_sms_success] then agrees with the
    outcome of the SMS call: the run ends after [send_sms] when the one
    SMS call succeeded, and goes through [handle_sms_error] when it
    failed. *)
Theorem mock_booking_completes (s : BookingState) (w : World) :
  let env := services info answer booking_draw sms_draw in
  let number := snd (booking_draw (length (booking_log w))) in
  awaiting_confirmation s = true ->
  ConfirmationResponse.user_wants_to_proceed (answer s) = true ->
  Apis.success (call_create_booking env (length (booking_log w)) (booking_args s))
    = true ->
  exists (r : Run) (text : Apis.SmsArgs) (sent : Apis.SmsResult),
    invoke env s w = Ok r
    /\ conversation_complete (final r) = true
    /\ State.booking_ref (final r) = Some ("BK-" ++ str_int number)
    /\ length (booking_log (world r)) = S (length (booking_log w))
    /\ sms_log (world r) = (sms_log w ++ [(text, sent)])%list
    /\ Apis.sms_phone text = State.phone s
    /\ sent = Apis.send_sms (sms_draw (length (sms_log w))) false text
    /\ visited r
       = ([ Graph.router; Graph.handle_confirmation; Graph.create_booking;
            Graph.send_sms ]
          ++ (if Apis.sms_success sent then [] else [Graph.handle_sms_error]))%list.
Proof. exact (mock_booking_outcome s w). Qed.

(** The mock booking service refuses the restaurant of the tests,
    whatever it draws. *)
Lemma test_restaurant_fails (unlucky : bool) (number : Z) (a : Apis.BookingArgs) :
  Apis.restaurant a = Some "Test Failure Restaurant" ->
  Apis.success (Apis.create_booking unlucky number false a) = false.
Proof.
  intros H. unfold Apis.create_booking. rewrite H. cbn.
  destruct unlucky; reflexivity.
Qed.

(** X15. The test hook of the booking service, end to end. A session
    that books the restaurant named Test Failure Restaurant through the
    mock services never gets a booking, whatever the random draws: the
    attempt and the retry both fail, no SMS is sent, and the run ends
    with the callback message, [conversation_complete] true and
    [booking_ref] equal to [None]. *)
Theorem test_restaurant_never_books (s : BookingState) (w : World) :
  let env := services info answer booking_draw sms_draw in
  restaurant_name s = Some "Test Failure Restaurant" ->
  awaiting_confirmation s = true ->
  ConfirmationResponse.user_wants_to_proceed (answer s) = true ->
  exists r : Run,
    invoke env s w = Ok r
    /\ visited r = [ Graph.router; Graph.handle_confirmation;
                     Graph.create_booking; Graph.handle_booking_error ]
    /\ length (booking_log (world r)) = S (S (length (booking_log w)))
    /\ Forall (fun call => Apis.success (snd call) = false)
              (skipn (length (booking_log w)) (booking_log (world r)))
    /\ sms_log (world r) = sms_log w
    /\ conversation_complete (final r) = true
    /\ State.booking_ref (final r) = None
    /\ last_item (messages (final r)) = Some (AIMessage (booking_error_message s)).
Proof.
  intros env Hname Haw Hyes.
  pose (s1 := apply_update s [K_user_confirmed true; K_awaiting_confirmation false]).
  pose (s2 := apply_update s1 [K_booking_ref None]).
  pose (w1 := booking_logged env s1 w).
  assert (H1 : Apis.success (next_booking_result env s1 w) = false)
    by (apply test_restaurant_fails; exact Hname).
  assert (H2 : Apis.success (next_booking_result env s2 w1) = false)
    by (apply test_restaurant_fails; exact Hname).
  eexists. split.
  - rewrite invoke_eq. unfold recursion_limit.
    run_node ltac:(rewrite step_router, Haw).
    run_node ltac:(rewrite step_handle_confirmation,
                     (handle_confirmation_node_proceed env s Hyes)).
    run_node ltac:(rewrite step_create_booking,
                     create_booking_node_failure
                     by (apply test_restaurant_fails; exact Hname)).
    run_node ltac:(rewrite step_handle_booking_error,
                     handle_booking_error_node_failure
                     by (apply test_restaurant_fails; exact Hname)).
    apply run_END.
  - cbn [final world visited].
    split; [reflexivity |].
    split; [cbn; rewrite !length_app; cbn; lia |].
    split.
    { unfold booking_logged. cbn [booking_log]. rewrite <- app_assoc.
      rewrite skipn_app, Nat.sub_diag, skipn_all.
      cbn [skipn app].
      constructor; [exact H1 | constructor; [exact H2 | constructor]]. }
    split; [reflexivity |]. split; [reflexivity |]. split; [reflexivity |].
    cbn [apply_update fold_left apply_entry messages]. apply last_item_app.
Qed.

(** X16. The test hook of the SMS service, end to end. With the phone
    555-SMS-FAIL and the mock services, a booking that succeeds at the
    first attempt always goes through the notification error handler,
    whatever the random draw of the SMS: the conversation is completed
    and the reference is kept. *)
Theorem test_phone_never_gets_sms (s : BookingState) (w : World) :
  let env := services info answer booking_draw sms_draw in
  let number := snd (booking_draw (length (booking_log w))) in
  State.phone s = Some "555-SMS-FAIL" ->
  awaiting_confirmation s = true ->
  ConfirmationResponse.user_wants_to_proceed (answer s) = true ->
  Apis.success (call_create_booking env (length (booking_log w)) (booking_args s))
    = true ->
  exists r : Run,
    invoke env s w = Ok r
    /\ visited r = [ Graph.router; Graph.handle_confirmation; Graph.create_booking;
                     Graph.send_sms; Graph.handle_sms_error ]
    /\ Forall (fun call => Apis.sms_success (snd call) = false)
              (skipn (length (sms_log w)) (sms_log (world r)))
    /\ conversation_complete (final r) = true
    /\ State.booking_ref (final r) = Some ("BK-" ++ str_int number).
Proof.
  intros env number Hphone Haw Hyes Hok.
  destruct (mock_booking_outcome s w Haw Hyes Hok)
    as (r & text & sent & Hr & Hc & Hb & _ & Hlog & Hto & Hsent & Hv).
  assert (Hfail : Apis.sms_success sent = false).
  { rewrite Hsent. unfold Apis.send_sms. rewrite Hto, Hphone. cbn.
    destruct (sms_draw _); reflexivity. }
  rewrite Hfail in Hv.
  exists r. split; [exact Hr |]. split; [exact Hv |].
  split.
  { rewrite Hlog, skipn_app, Nat.sub_diag, skipn_all. cbn.
    constructor; [exact Hfail | constructor]. }
  split; assumption.
Qed.

End MockServices.

(** ** The command line *)

Section CommandLine.
Variable strip : string -> string.
Variable lower : string -> string.
Variable envs : nat -> Adapters.





End CommandLine.

Section Echo.
Variable strip : string -> string.
Variable lower : string -> string.
Variable envs : nat -> Adapters.

(** X14. After a silent rejection the command line shows the user
    their own words. When the state waits for a confirmation and the
    classifier answers no with an empty [requested_changes], the graph
    appends nothing, so the last message of the history, which main.py
    prints after the word Agent, is the line the user has just typed.
    The loop then goes on with the state out of the waiting mode. *)
Theorem silent_rejection_is_echoed
    (line : string) (rest : list string) (st : BookingState) (w : World)
    (seen : list BookingState) (said : list string) :
  let st1 := append_user_message st (strip line) in
  let env := envs (length seen) in
  Main.is_empty (strip line) = false ->
  Main.member (lower (strip line)) Main.exit_commands = false ->
  awaiting_confirmation st = true ->
  conversation_complete st = false ->
  ConfirmationResponse.user_wants_to_proceed (call_llm_confirmation env st1) = false ->
  truthy_str (ConfirmationResponse.requested_changes (call_llm_confirmation env st1))
    = false ->
  Main.loop strip lower envs (line :: rest) st w seen said
    = Main.loop strip lower envs rest
        (apply_update st1 [K_user_confirmed false; K_awaiting_confirmation false])
        w (seen ++ [st1])%list (said ++ [strip line])%list.
Proof.
  intros st1 env Hempty Hexit Haw Hopen Hno Hquiet.
  assert (Hnode : handle_confirmation_node env st1
                  = [K_user_confirmed false; K_awaiting_confirmation false]).
  { unfold handle_confirmation_node. rewrite Hno.
    destruct (ConfirmationResponse.requested_changes (call_llm_confirmation env st1))
      as [changes|]; [| reflexivity].
    rewrite Hquiet. reflexivity. }
  assert (Hout : invoke env st1 w
                 = Ok {| final := apply_update st1 [K_user_confirmed false;
                                                    K_awaiting_confirmation false];
                         world := w;
                         visited := [Graph.router; Graph.handle_confirmation] |}).
  { rewrite (invoke_confirms env st1 w Haw). unfold confirmation_outcome.
    rewrite Hnode. reflexivity. }
  cbn [Main.loop]. rewrite Hempty, Hexit.
  fold st1. fold env. rewrite Hout. cbn [final world].
  set (st2 := apply_update st1 _).
  change (messages st2) with (messages st ++ [HumanMessage (strip line)])%list.
  rewrite last_item_app.
  change (conversation_complete st2) with (conversation_complete st).
  rewrite Hopen. reflexivity.
Qed.

End Echo.

(** Witness of X14: the user mumbles at the summary and the classifier
    returns no text. [strip] and [lower] are taken as the identity, as
    they are on a line of lower-case words without blanks around. *)
Lemma silent_rejection_is_echoed_witness :
  let strip := fun s : string => s in
  let lower := fun s : string => s in
  let envs := fun _ : nat =>
    Fixtures.patched (Fixtures.no_fields "ok")
      (Fixtures.decision false None) (fun _ => Fixtures.booking_failed) true in
  let st := apply_update Fixtures.create_complete_booking_state
              (confirm_node Fixtures.create_complete_booking_state) in
  let st1 := append_user_message st (strip "hmm") in
  let env := envs (length (@nil BookingState)) in
  Main.is_empty (strip "hmm") = false
  /\ Main.member (lower (strip "hmm")) Main.exit_commands = false
  /\ awaiting_confirmation st = true
  /\ conversation_complete st = false
  /\ ConfirmationResponse.user_wants_to_proceed (call_llm_confirmation env st1) = false
  /\ truthy_str (ConfirmationResponse.requested_changes (call_llm_confirmation env st1))
     = false
  /\ Main.loop strip lower envs ["hmm"] st empty_world [] []
     = Main.loop strip lower envs []
         (apply_update st1 [K_user_confirmed false; K_awaiting_confirmation false])
         empty_world ([] ++ [st1])%list ([] ++ [strip "hmm"])%list.
Proof.
  intros strip lower envs st st1 env.
  repeat (split; [reflexivity |]).
  apply (silent_rejection_is_echoed strip lower envs "hmm" [] st empty_world [] []);
    reflexivity.
Defined.

(** Witness of X11: every booking call fails. *)
Lemma callback_message_restates_details_witness :
  let env := Fixtures.booking_service_down (Fixtures.no_fields "ok")
               (Fixtures.decision true None) in
  let s := Fixtures.create_complete_booking_state in
  let w := empty_world in
  Apis.success (call_create_booking env (length (booking_log w)) (booking_args s))
    = false
  /\ exists text : string,
      fst (handle_booking_error_node env s w)
        = [K_messages [AIMessage text]; K_conversation_complete true]
      /\ contains (fmt_str (restaurant_name s)) text = true
      /\ contains (fmt_str (State.date s)) text = true
      /\ contains (fmt_str (State.time s)) text = true
      /\ contains (fmt_int (State.party_size s)) text = true
      /\ contains (fmt_str (customer_name s)) text = true
      /\ contains (fmt_str (State.phone s)) text = true
      /\ contains "call you back" text = true.
Proof.
  intros env s w. split; [reflexivity |].
  apply (callback_message_restates_details env s w). reflexivity.
Defined.

(** The draws of a good day: nothing fails, the number drawn is 12345. *)
Lemma mock_booking_completes_witness :
  let info := fun _ : BookingState => Fixtures.no_fields "ok" in
  let answer := fun _ : BookingState => Fixtures.decision true None in
  let booking_draw := fun _ : nat => (false, 12345%Z) in
  let sms_draw := fun _ : nat => false in
  let env := services info answer booking_draw sms_draw in
  let s := Fixtures.awaiting_reply "yes" in
  let w := empty_world in
  awaiting_confirmation s = true
  /\ ConfirmationResponse.user_wants_to_proceed (answer s) = true
  /\ Apis.success (call_create_booking env (length (booking_log w)) (booking_args s))
     = true
  /\ exists (r : Run) (text : Apis.SmsArgs) (sent : Apis.SmsResult),
      invoke env s w = Ok r
      /\ conversation_complete (final r) = true
      /\ State.booking_ref (final r) = Some ("BK-" ++ str_int 12345)
      /\ length (booking_log (world r)) = S (length (booking_log w))
      /\ sms_log (world r) = (sms_log w ++ [(text, sent)])%list
      /\ Apis.sms_phone text = State.phone s
      /\ sent = Apis.send_sms (sms_draw (length (sms_log w))) false text
      /\ visited r
         = ([ Graph.router; Graph.handle_confirmation; Graph.create_booking;
              Graph.send_sms ]
            ++ (if Apis.sms_success sent then [] else [Graph.handle_sms_error]))%list.
Proof.
  intros info answer booking_draw sms_draw env s w.
  split; [reflexivity |]. split; [reflexivity |]. split; [reflexivity |].
  apply (mock_booking_completes info answer booking_draw sms_draw s w); reflexivity.
Defined.

(** Witness of X15: the user books the restaurant of the tests. *)
Lemma test_restaurant_never_books_witness :
  let info := fun _ : BookingState => Fixtures.no_fields "ok" in
  let answer := fun _ : BookingState => Fixtures.decision true None in
  let booking_draw := fun _ : nat => (false, 12345%Z) in
  let sms_draw := fun _ : nat => false in
  let env := services info answer booking_draw sms_draw in
  let s := append_user_message
             (apply_update Fixtures.create_complete_booking_state
                [ K_restaurant_name "Test Failure Restaurant";
                  K_awaiting_confirmation true ]) "yes" in
  let w := empty_world in
  restaurant_name s = Some "Test Failure Restaurant"
  /\ awaiting_confirmation s = true
  /\ ConfirmationResponse.user_wants_to_proceed (answer s) = true
  /\ exists r : Run,
      invoke env s w = Ok r
      /\ visited r = [ Graph.router; Graph.handle_confirmation;
                       Graph.create_booking; Graph.handle_booking_error ]
      /\ length (booking_log (world r)) = S (S (length (booking_log w)))
      /\ Forall (fun call => Apis.success (snd call) = false)
                (skipn (length (booking_log w)) (booking_log (world r)))
      /\ sms_log (world r) = sms_log w
      /\ conversation_complete (final r) = true
      /\ State.booking_ref (final r) = None
      /\ last_item (messages (final r)) = Some (AIMessage (booking_error_message s)).
Proof.
  intros info answer booking_draw sms_draw env s w.
  split; [reflexivity |]. split; [reflexivity |]. split; [reflexivity |].
  apply (test_restaurant_never_books info answer booking_draw sms_draw s w);
    reflexivity.
Defined.

(** Witness of X16: the user gives the phone of the tests. *)
Lemma test_phone_never_gets_sms_witness :
  let info := fun _ : BookingState => Fixtures.no_fields "ok" in
  let answer := fun _ : BookingState => Fixtures.decision true None in
  let booking_draw := fun _ : nat => (false, 12345%Z) in
  let sms_draw := fun _ : nat => false in
  let env := services info answer booking_draw sms_draw in
  let s := append_user_message
             (apply_update Fixtures.create_complete_booking_state
                [ K_phone "555-SMS-FAIL"; K_awaiting_confirmation true ]) "yes" in
  let w := empty_world in
  State.phone s = Some "555-SMS-FAIL"
  /\ awaiting_confirmation s = true
  /\ ConfirmationResponse.user_wants_to_proceed (answer s) = true
  /\ Apis.success (call_create_booking env (length (booking_log w)) (booking_args s))
     = true
  /\ exists r : Run,
      invoke env s w = Ok r
      /\ visited r = [ Graph.router; Graph.handle_confirmation; Graph.create_booking;
                       Graph.send_sms; Graph.handle_sms_error ]
      /\ Forall (fun call => Apis.sms_success (snd call) = false)
                (skipn (length (sms_log w)) (sms_log (world r)))
      /\ conversation_complete (final r) = true
      /\ State.booking_ref (final r) = Some ("BK-" ++ str_int 12345).
Proof.
  intros info answer booking_draw sms_draw env s w.
  split; [reflexivity |]. split; [reflexivity |].
  split; [reflexivity |]. split; [reflexivity |].
  apply (test_phone_never_gets_sms info answer booking_draw sms_draw s w);
    reflexivity.
Defined.

(** ** The notification router outside the graph *)


